(** * WebScanner/research_tool.py: the research pipeline of [WebResearchTool]

    A shallow embedding of the five stages of [WebResearchTool.research]
    (search, filter, extract, per-source analysis, synthesis) and the
    properties of the specification that concern them.

    Python dictionaries are finite maps with string keys ([gmap string _]),
    Python lists are lists, Python [int]s are [Z], Python text is the
    string of its UTF-8 bytes.  The services the class
    talks to (the search API, HTTP, the model client, the clock) and the
    library functions it calls ([urlparse], [json.loads], [json.dumps]) are
    fields of an environment record; every call appends an event to a
    trace, and a service answers from the trace of what happened before. *)

From stdpp Require Import gmap strings list fin_maps.
From stdpp Require Import pretty.
From Stdlib Require Import ZArith Ascii.

#[local] Open Scope Z_scope.
#[local] Set Warnings "-register-all".

(** ** Python built-ins used by the module *)

Module Py.

(** [s.endswith(t)]: [t] is no longer than [s] and the last [len(t)]
    characters of [s] are [t]. *)
Definition endswith (s t : string) : bool :=
  let n := String.length s in
  let k := String.length t in
  (k <=? n)%nat && String.eqb (String.substring (n - k) k s) t.

(** [l[:n]] for a Python integer [n]: the first [n] elements, and for a
    negative [n] all but the last [-n]. *)
Definition slice_to {A : Type} (l : list A) (n : Z) : list A :=
  if 0 <=? n then take (Z.to_nat n) l
  else take (List.length l - Z.to_nat (- n)) l.

(** A byte that continues a character of UTF-8 text (10xxxxxx): every
    character is one byte that is not of this kind, followed by those that
    are. *)
Definition is_continuation (c : ascii) : bool :=
  let n := nat_of_ascii c in (128 <=? n)%nat && (n <? 192)%nat.

(** [len(s)]: the number of characters. *)
Fixpoint len (s : string) : nat :=
  match s with
  | EmptyString => 0%nat
  | String c rest => if is_continuation c then len rest else S (len rest)
  end.

(** The first [n] characters, each with the bytes that continue it. *)
Fixpoint take_chars (n : nat) (s : string) : string :=
  match s with
  | EmptyString => EmptyString
  | String c rest =>
      if is_continuation c then String c (take_chars n rest)
      else match n with
           | O => EmptyString
           | S m => String c (take_chars m rest)
           end
  end.

(** [s[:n]] on a string, for a natural [n]. *)
Definition str_slice_to (s : string) (n : nat) : string := take_chars n s.

(** The characters [str.strip()] removes (ASCII white space). *)
Definition isspace (c : ascii) : bool :=
  let n := nat_of_ascii c in
  ((9 <=? n)%nat && (n <=? 13)%nat) || ((28 <=? n)%nat && (n <=? 32)%nat).

Fixpoint lstrip (s : string) : string :=
  match s with
  | String c rest => if isspace c then lstrip rest else s
  | EmptyString => EmptyString
  end.

(** [rstrip] walks from the right: a white-space character is dropped
    when everything after it has been dropped too. *)
Fixpoint rstrip (s : string) : string :=
  match s with
  | String c rest =>
      match rstrip rest with
      | EmptyString => if isspace c then EmptyString else String c EmptyString
      | kept => String c kept
      end
  | EmptyString => EmptyString
  end.

Definition strip (s : string) : string := rstrip (lstrip s).

(** [sep.join(parts)]. *)
Definition join (sep : string) (parts : list string) : string :=
  String.concat sep parts.

(** Truth value of a string: [not s] holds of the empty string. *)
Definition truthy (s : string) : bool :=
  match s with EmptyString => false | String _ _ => true end.

End Py.

(** ** JSON values and records *)

Inductive json : Type :=
| JNull
| JBool (b : bool)
| JInt (z : Z)
| JFloat (repr : string)
| JStr (s : string)
| JArr (l : list json)
| JObj (m : gmap string json).

(** The name Python prints for the type of a value, as it appears in the
    text of an [AttributeError]. *)
Definition type_name (j : json) : string :=
  match j with
  | JNull => "NoneType"
  | JBool _ => "bool"
  | JInt _ => "int"
  | JFloat _ => "float"
  | JStr _ => "str"
  | JArr _ => "list"
  | JObj _ => "dict"
  end.

(** A search candidate: the dictionary [search_urls] builds for one item,
    with its four keys. *)
Record url_data : Type := UrlData {
  url : string;
  title : string;
  snippet : string;
  source : string
}.

(** The dictionary view of a candidate, as [dict.update] reads it. *)
Definition url_data_dict (u : url_data) : gmap string json :=
  <["url" := JStr (url u)]>
    (<["title" := JStr (title u)]>
      (<["snippet" := JStr (snippet u)]>
        (<["source" := JStr (source u)]> ∅))).

(** ** Events, traces and the environment *)

Inductive event : Type :=
| EvLog (level msg : string)
| EvSearch (q : string) (num : Z)
| EvFetch (target : string)
| EvCreate (model : string) (max_tokens : Z) (system prompt : string)
| EvSleep (seconds : Z)
| EvNow.

Definition trace : Type := list event.

(** An exception is carried by its message, [str(e)]. *)
Definition exn : Type := string.

Record Env : Type := {
  (** [urlparse(u).netloc], for a url [urlparse] accepts *)
  urlparse_netloc : string -> string;
  (** the [ValueError] [urlparse(u)] raises, for a url it does not accept *)
  urlparse_error : string -> option exn;
  (** [json.loads]: a decoding error or the decoded value *)
  json_loads : string -> exn + json;
  (** [json.dumps(_, indent=2)] *)
  json_dumps : json -> string;
  (** [service.cse().list(q, cx, num).execute().get('items')]; an item is a
      dictionary of strings *)
  cse_items : trace -> string -> Z -> exn + option (list (gmap string string));
  (** [requests.get], [raise_for_status], the parse, the removal of the
      unwanted elements and [get_text()] of every element [find_all] yields,
      in document order *)
  page_elements : trace -> string -> exn + list string;
  (** [client.messages.create(...).content[0].text] *)
  messages_create : trace -> string -> Z -> string -> string -> exn + string;
  (** [datetime.now().isoformat()] *)
  now_isoformat : trace -> string
}.

(** The object itself: [self.max_urls] and what it is connected to. *)
Record WebResearchTool : Type := {
  env : Env;
  max_urls : Z
}.

(** ** The credibility filter *)

Definition trusted_domains : list string :=
  [ "nature.com"; "science.org"; "scientificamerican.com";
    "ieee.org"; "acm.org"; "arxiv.org"; "gov"; "edu";
    "github.com"; "stackoverflow.com"; "medium.com" ]%string.

(** [any(domain.endswith(trusted) for trusted in trusted_domains)] *)
Definition is_trusted (domain : string) : bool :=
  existsb (Py.endswith domain) trusted_domains.

Section Filter.

Context (self : WebResearchTool).

(** The domain the filter looks at: the [netloc] of the candidate's url. *)
Definition domain_of (u : url_data) : string :=
  urlparse_netloc (env self) (url u).

(** The loop of [filter_urls], with [filtered_urls] as accumulator. *)
Fixpoint filter_loop (urls filtered_urls : list url_data) : list url_data :=
  match urls with
  | [] => filtered_urls
  | u :: rest =>
      let domain := domain_of u in
      if is_trusted domain
      then filter_loop rest (filtered_urls ++ [u])
      else filter_loop rest filtered_urls
  end.

Definition filter_urls (urls : list url_data) : list url_data :=
  Py.slice_to (filter_loop urls []) (max_urls self).

(** The trusted members of a candidate list, in their order. *)
Definition trusted_inputs (urls : list url_data) : list url_data :=
  List.filter (fun u => is_trusted (domain_of u)) urls.

End Filter.

(** ** Effects: a state monad over the trace *)

Definition M (A : Type) : Type := trace -> A * trace.

Definition ret {A : Type} (a : A) : M A := fun tr => (a, tr).

Definition bind {A B : Type} (m : M A) (k : A -> M B) : M B :=
  fun tr => let (a, tr') := m tr in k a tr'.

(** A call to the outside: the event is recorded, the answer depends on
    what was recorded before it. *)
Definition call {A : Type} (e : event) (answer : trace -> A) : M A :=
  fun tr => (answer tr, tr ++ [e]).

Declare Scope research_scope.
Delimit Scope research_scope with research.
Notation "x <- m ;; k" := (bind m (fun x => k))
  (at level 100, m at next level, right associativity) : research_scope.
Notation "m ;; k" := (bind m (fun _ => k))
  (at level 100, right associativity) : research_scope.
#[local] Open Scope research_scope.

Definition logger_info (msg : string) : M unit := call (EvLog "INFO" msg) (fun _ => tt).
Definition logger_error (msg : string) : M unit := call (EvLog "ERROR" msg) (fun _ => tt).
Definition time_sleep (seconds : Z) : M unit := call (EvSleep seconds) (fun _ => tt).

(** The number of model-completion calls a trace records. *)
Definition is_create (e : event) : bool :=
  match e with EvCreate _ _ _ _ => true | _ => false end.

Definition model_calls (tr : trace) : nat := List.length (List.filter is_create tr).

(** ** Text of the prompts *)

Definition nl : string := String (ascii_of_nat 10) EmptyString.
Definition dquote : string := String (ascii_of_nat 34) EmptyString.

(** A triple-quoted literal: its lines, each continuation line behind the
    indentation it has in the file. *)
Definition lines (indent : string) (ls : list string) : string :=
  Py.join (nl +:+ indent) ls.

Definition model_name : string := "claude-3-sonnet-20240229".

Definition analysis_system : string :=
  "You analyze web content and provide structured analysis. Respond only with JSON.".

Definition synthesis_system : string :=
  "You synthesize research findings into clear conclusions. Respond only with JSON.".

Definition analysis_prompt (u : url_data) (query content : string) : string :=
  lines "            "
    [ "Analyze this webpage about " +:+ dquote +:+ query +:+ dquote +:+ ":";
      "";
      "URL: " +:+ url u;
      "Title: " +:+ title u;
      "Source: " +:+ source u;
      "";
      "Content: " +:+ content;
      "";
      "Provide:";
      "1. Summary of relevant information (3-4 sentences)";
      "2. Key findings related to the query";
      "3. Credibility assessment of the source";
      "4. Publication date or recency (if available)";
      "";
      "Format as JSON with keys: summary, key_findings, credibility, date" ]%string.

Definition synthesis_prompt (query dumped : string) : string :=
  lines "        "
    [ "Research query: " +:+ query;
      "";
      "Webpage analyses: " +:+ dumped;
      "";
      "Synthesize these findings into:";
      "1. Comprehensive answer to the query";
      "2. Main conclusions";
      "3. Confidence level in findings";
      "4. Areas needing more research";
      "5. Most reliable sources found";
      "";
      "Format as JSON with keys: answer, conclusions, confidence, gaps, best_sources" ]%string.

(** ** The stages *)

Definition max_content_length : Z := 12000.

(** The record of a source that could not be analysed. *)
Definition error_record (u : url_data) (msg : string) : gmap string json :=
  <["url" := JStr (url u)]> (<["error" := JStr msg]> ∅).

Definition has_key (r : gmap string json) (k : string) : bool :=
  bool_decide (is_Some (r !! k)).

(** The invariant the specification states for a per-source record: the
    three analysis fields all present and no error, or an error and none of
    the three. *)
Definition all_or_nothing (r : gmap string json) : bool :=
  (has_key r "summary" && has_key r "key_findings" && has_key r "credibility"
     && negb (has_key r "error"))
  || (has_key r "error" && negb (has_key r "summary")
        && negb (has_key r "key_findings") && negb (has_key r "credibility")).

Section Pipeline.

Context (self : WebResearchTool).

Let E : Env := env self.

(** *** Source discovery *)

(** One item of the response turned into a candidate; a missing key
    raises [KeyError], whose text is the quoted key, and [urlparse] raises
    on a link it does not accept. *)
Definition candidate_of_item (item : gmap string string) : exn + url_data :=
  match item !! "link" with
  | None => inl "'link'"%string
  | Some link =>
      match item !! "title" with
      | None => inl "'title'"%string
      | Some t =>
          match item !! "snippet" with
          | None => inl "'snippet'"%string
          | Some s =>
              match urlparse_error E link with
              | Some e => inl e
              | None =>
                  inr {| url := link; title := t; snippet := s;
                         source := urlparse_netloc E link |}
              end
          end
      end
  end.

Fixpoint collect_items (items : list (gmap string string))
    (search_results : list url_data) : exn + list url_data :=
  match items with
  | [] => inr search_results
  | item :: rest =>
      match candidate_of_item item with
      | inl e => inl e
      | inr c => collect_items rest (search_results ++ [c])
      end
  end.

Definition search_urls (query : string) : M (list url_data) :=
  result <- call (EvSearch query (max_urls self))
                 (fun tr => cse_items E tr query (max_urls self)) ;;
  match result with
  | inl e => logger_error ("Error in search: " +:+ e) ;; ret []
  | inr items =>
      match collect_items (default [] items) [] with
      | inl e => logger_error ("Error in search: " +:+ e) ;; ret []
      | inr search_results => ret search_results
      end
  end.

(** *** Content extraction *)

Fixpoint content_loop (elements content : list string) : list string :=
  match elements with
  | [] => content
  | element :: rest =>
      let text := Py.strip element in
      if Py.truthy text
      then content_loop rest (content ++ [text])
      else content_loop rest content
  end.

Definition extract_text_from_url (target : string) : M (option string) :=
  page <- call (EvFetch target) (fun tr => page_elements E tr target) ;;
  match page with
  | inl e =>
      logger_error ("Error extracting content from " +:+ target +:+ ": " +:+ e) ;;
      ret None
  | inr elements => ret (Some (Py.join nl (content_loop elements [])))
  end.

(** *** Per-source analysis *)

Definition truncate_content (content : string) : string :=
  if max_content_length <? Z.of_nat (Py.len content)
  then Py.str_slice_to content (Z.to_nat max_content_length) +:+ "..."
  else content.

(** [analysis.update(url_data)] on whatever [json.loads] returned: only a
    dictionary has the method. *)
Definition update_with (analysis : json) (u : url_data) : exn + gmap string json :=
  match analysis with
  | JObj d => inr (url_data_dict u ∪ d)
  | other => inl ("'" +:+ type_name other +:+ "' object has no attribute 'update'")
  end.

Definition analysis_failed (u : url_data) (e : exn) : M (gmap string json) :=
  logger_error ("Error analyzing " +:+ url u +:+ ": " +:+ e) ;;
  ret (error_record u e).

Definition analyze_webpage (u : url_data) (query : string) : M (gmap string json) :=
  content <- extract_text_from_url (url u) ;;
  match content with
  | None => ret (error_record u "Failed to extract content")
  | Some EmptyString => ret (error_record u "Failed to extract content")
  | Some content =>
      let content := truncate_content content in
      let prompt := analysis_prompt u query content in
      message <- call (EvCreate model_name 1000 analysis_system prompt)
                      (fun tr => messages_create E tr model_name 1000
                                   analysis_system prompt) ;;
      match message with
      | inl e => analysis_failed u e
      | inr text =>
          match json_loads E text with
          | inl e => analysis_failed u e
          | inr analysis =>
              match update_with analysis u with
              | inl e => analysis_failed u e
              | inr merged => ret merged
              end
          end
      end
  end.

(** *** Orchestration *)

(** The loop of [research] over the filtered candidates, with [analyses]
    as accumulator. *)
Fixpoint analyze_loop (filtered_urls : list url_data) (query : string)
    (analyses : list (gmap string json)) : M (list (gmap string json)) :=
  match filtered_urls with
  | [] => ret analyses
  | u :: rest =>
      logger_info ("Analyzing " +:+ url u) ;;
      analysis <- analyze_webpage u query ;;
      time_sleep 1 ;;
      analyze_loop rest query (analyses ++ [analysis])
  end.

Definition webpage_analyses_json (analyses : list (gmap string json)) : json :=
  JArr (JObj <$> analyses).

(** The four fields both shapes of a completed run share. *)
Definition run_record (query timestamp : string)
    (analyses : list (gmap string json)) : gmap string json :=
  <["query" := JStr query]>
    (<["timestamp" := JStr timestamp]>
      (<["sources_analyzed" := JInt (Z.of_nat (List.length analyses))]>
        (<["webpage_analyses" := webpage_analyses_json analyses]> ∅))).

Definition synthesis_failed (query : string) (analyses : list (gmap string json))
    (e : exn) : M (gmap string json) :=
  logger_error ("Error synthesizing results: " +:+ e) ;;
  timestamp <- call EvNow (now_isoformat E) ;;
  ret (<["error" := JStr e]> (run_record query timestamp analyses)).

(** Lines 220 to 265: the synthesis request and the final record. *)
Definition compile_findings (query : string) (analyses : list (gmap string json))
    : M (gmap string json) :=
  let prompt :=
    synthesis_prompt query (json_dumps E (webpage_analyses_json analyses)) in
  message <- call (EvCreate model_name 1500 synthesis_system prompt)
                  (fun tr => messages_create E tr model_name 1500
                               synthesis_system prompt) ;;
  match message with
  | inl e => synthesis_failed query analyses e
  | inr text =>
      match json_loads E text with
      | inl e => synthesis_failed query analyses e
      | inr synthesis =>
          timestamp <- call EvNow (now_isoformat E) ;;
          ret (<["synthesis" := synthesis]> (run_record query timestamp analyses))
      end
  end.

Definition research (query : string) : M (gmap string json) :=
  logger_info ("Searching for relevant URLs for query: " +:+ query) ;;
  search_results <- search_urls query ;;
  match search_results with
  | [] => ret {[ "error" := JStr "No search results found" ]}
  | _ :: _ =>
      let filtered_urls := filter_urls self search_results in
      match filtered_urls with
      | [] => ret {[ "error" := JStr "No reliable sources found" ]}
      | _ :: _ =>
          analyses <- analyze_loop filtered_urls query [] ;;
          compile_findings query analyses
      end
  end.

(** *** The stages of one run, named

    What [research query] has at each stage boundary when it starts from
    the trace [tr]. *)

Definition discovery (query : string) (tr : trace) : list url_data * trace :=
  bind (logger_info ("Searching for relevant URLs for query: " +:+ query))
       (fun _ => search_urls query) tr.

Definition candidates (query : string) (tr : trace) : list url_data :=
  fst (discovery query tr).

Definition filtered (query : string) (tr : trace) : list url_data :=
  filter_urls self (candidates query tr).

Definition analysis_stage (query : string) (tr : trace)
    : list (gmap string json) * trace :=
  analyze_loop (filtered query tr) query [] (snd (discovery query tr)).

(** The per-source records gathered by the loop. *)
Definition gathered (query : string) (tr : trace) : list (gmap string json) :=
  fst (analysis_stage query tr).

(** A model call followed by [json.loads] of its text: the decoded value,
    or the message of whichever of the two failed. *)
Definition decoded_reply (tr : trace) (max_tokens : Z) (system prompt : string)
    : exn + json :=
  match messages_create E tr model_name max_tokens system prompt with
  | inl e => inl e
  | inr text => json_loads E text
  end.

(** The outcome of the analysis request for [u], made after the trace [tr],
    with the extracted text [content]. *)
Definition analysis_outcome (u : url_data) (query content : string) (tr : trace)
    : exn + json :=
  decoded_reply tr 1000 analysis_system
    (analysis_prompt u query (truncate_content content)).

(** The outcome of the synthesis request of the run. *)
Definition synthesis_outcome (query : string) (tr : trace) : exn + json :=
  decoded_reply (snd (analysis_stage query tr)) 1500 synthesis_system
    (synthesis_prompt query
       (json_dumps E (webpage_analyses_json (gathered query tr)))).

End Pipeline.

(** ** A concrete environment for the examples *)

Module Demo.

(** [urlparse(u).netloc] for the urls of the examples: what follows a
    [scheme://] up to the first of [/], [?] and [#]; empty when the url
    has no [//] after its scheme. *)
Fixpoint until_delim (s : string) : string :=
  match s with
  | EmptyString => EmptyString
  | String c rest =>
      if (Ascii.eqb c "/" || Ascii.eqb c "?" || Ascii.eqb c "#")%char
      then EmptyString
      else String c (until_delim rest)
  end.

Fixpoint after_scheme (s : string) : string :=
  match s with
  | EmptyString => EmptyString
  | String ":" rest => rest
  | String _ rest => after_scheme rest
  end.

Definition netloc (u : string) : string :=
  match after_scheme u with
  | String "/" (String "/" rest) => until_delim rest
  | _ => EmptyString
  end.

Fixpoint has_char (c : ascii) (s : string) : bool :=
  match s with
  | EmptyString => false
  | String x rest => Ascii.eqb x c || has_char c rest
  end.

(** The [ValueError] of [urlparse] for the urls of the examples: a
    [netloc] with one square bracket and not the other. *)
Definition parse_error (u : string) : option exn :=
  if xorb (has_char "[" (netloc u)) (has_char "]" (netloc u))
  then Some "Invalid IPv6 URL"%string
  else None.

Definition quoted (s : string) : string := dquote +:+ s +:+ dquote.

(** [{"summary": "s", "key_findings": "k", "credibility": "c", "date": "d"}] *)
Definition full_reply : string :=
  "{" +:+ quoted "summary" +:+ ": " +:+ quoted "s" +:+ ", "
      +:+ quoted "key_findings" +:+ ": " +:+ quoted "k" +:+ ", "
      +:+ quoted "credibility" +:+ ": " +:+ quoted "c" +:+ ", "
      +:+ quoted "date" +:+ ": " +:+ quoted "d" +:+ "}".

Definition full_record : gmap string json :=
  <["summary" := JStr "s"]>
    (<["key_findings" := JStr "k"]>
      (<["credibility" := JStr "c"]>
        (<["date" := JStr "d"]> ∅))).

(** [{"summary": "s"}] *)
Definition partial_reply : string :=
  "{" +:+ quoted "summary" +:+ ": " +:+ quoted "s" +:+ "}".

Definition partial_record : gmap string json := {[ "summary" := JStr "s" ]}.

(** [{"answer": "a"}] *)
Definition synthesis_reply : string :=
  "{" +:+ quoted "answer" +:+ ": " +:+ quoted "a" +:+ "}".

Definition expecting_value : exn := "Expecting value: line 1 column 1 (char 0)".

(** [json.loads] on the texts the examples use; any other text they pass
    is not JSON at its first character. *)
Definition loads (text : string) : exn + json :=
  if String.eqb text full_reply then inr (JObj full_record)
  else if String.eqb text partial_reply then inr (JObj partial_record)
  else if String.eqb text synthesis_reply then inr (JObj {[ "answer" := JStr "a" ]})
  else if String.eqb text "[]" then inr (JArr [])
  else inl expecting_value.

Definition item (link : string) : gmap string string :=
  <["link" := link]> (<["title" := "T"]> (<["snippet" := "S"]> ∅)).

(** A backend given by tables: the items of the search, the elements of
    each page, the reply to an analysis request (chosen by the url in
    its prompt) and the reply to the synthesis request. *)
Definition table_env
    (items : exn + option (list (gmap string string)))
    (pages : string -> exn + list string)
    (analysis_reply : string -> exn + string)
    (synthesis : exn + string) : Env :=
  {| urlparse_netloc := netloc;
     urlparse_error := parse_error;
     json_loads := loads;
     json_dumps := fun _ => "[...]"%string;
     cse_items := fun _ _ _ => items;
     page_elements := fun _ target => pages target;
     messages_create := fun tr _ max_tokens _ _ =>
       if max_tokens =? 1500 then synthesis
       else match last tr with
            | Some (EvFetch target) => analysis_reply target
            | _ => inl "no page fetched"%string
            end;
     now_isoformat := fun _ => "2024-01-01T00:00:00"%string |}.

(** The pages and replies of the examples. *)
Definition nature : string := "https://www.nature.com/a".
Definition blog : string := "https://randomblog.xyz/q".
Definition clone : string := "https://clonegithub.com/x".
Definition fakegov : string := "https://notrealgov/p".
Definition arxiv : string := "https://arxiv.org/abs/1".
Definition github : string := "https://github.com/o/r".
Definition campus : string := "https://mit.edu/r".

Definition candidate (link : string) : url_data :=
  {| url := link; title := "T"; snippet := "S"; source := netloc link |}.

(** [nature], [campus], [github] and [fakegov] have text, [clone] has
    none, every other fetch fails. *)
Definition pages (target : string) : exn + list string :=
  if String.eqb target nature then inr ["  Hello  "; "   "; "World"]
  else if String.eqb target campus then inr ["Paper"]
  else if String.eqb target github then inr ["Readme"]
  else if String.eqb target fakegov then inr ["text"]
  else if String.eqb target clone then inr []
  else inl "404 Client Error: Not Found".

(** The model answers with the four fields for [nature] and [campus],
    with one field for [fakegov], with text that is not JSON for
    [github], and is unavailable otherwise. *)
Definition replies (target : string) : exn + string :=
  if String.eqb target nature then inr full_reply
  else if String.eqb target campus then inr full_reply
  else if String.eqb target fakegov then inr partial_reply
  else if String.eqb target github then inr "not json"
  else inl "529 overloaded".

Definition tool (links : list string) (synthesis : exn + string) (limit : Z)
    : WebResearchTool :=
  {| env := table_env (inr (Some (item <$> links))) pages replies synthesis;
     max_urls := limit |}.

(** The tools and candidate lists of the examples. *)
Definition analyzer_tool : WebResearchTool := tool [] (inl "unused") 5.
Definition pair_tool : WebResearchTool := tool [] (inl "unused") 2.
Definition single_tool : WebResearchTool := tool [] (inl "unused") 1.
Definition untrusted_search : WebResearchTool := tool [blog] (inl "unused") 5.
Definition degraded_run : WebResearchTool :=
  tool [nature; arxiv; campus] (inr "not json") 5.
Definition complete_run : WebResearchTool :=
  tool [nature; arxiv; campus] (inr synthesis_reply) 5.

Definition mixed_urls : list url_data :=
  [candidate blog; candidate nature; candidate clone].
Definition lookalike_urls : list url_data :=
  [candidate blog; candidate fakegov; candidate clone].
Definition crowded_urls : list url_data :=
  [candidate nature; candidate clone].
Definition three_urls : list url_data :=
  [candidate nature; candidate github; candidate campus].

End Demo.

(** ** What a trace records, by kind of event *)

Definition is_fetch (e : event) : bool :=
  match e with EvFetch _ => true | _ => false end.

Definition is_sleep (e : event) : bool :=
  match e with EvSleep _ => true | _ => false end.

Definition is_search (e : event) : bool :=
  match e with EvSearch _ _ => true | _ => false end.

Definition fetches (tr : trace) : nat := List.length (List.filter is_fetch tr).
Definition sleeps (tr : trace) : nat := List.length (List.filter is_sleep tr).
Definition searches (tr : trace) : nat := List.length (List.filter is_search tr).

(** How the four counts of [tr'] exceed those of [tr]: searches, fetches
    and sleeps exactly, model calls between two bounds. *)
Definition counts_add (tr tr' : trace) (nsearch nfetch nsleep : nat)
    (ncreate_min ncreate_max : nat) : Prop :=
  searches tr' = (searches tr + nsearch)%nat /\
  fetches tr' = (fetches tr + nfetch)%nat /\
  sleeps tr' = (sleeps tr + nsleep)%nat /\
  (model_calls tr + ncreate_min <= model_calls tr')%nat /\
  (model_calls tr' <= model_calls tr + ncreate_max)%nat.

(** ** Notions on strings used by the statements *)

(** Every character is one [str.strip()] removes. *)
Fixpoint all_space (s : string) : bool :=
  match s with
  | EmptyString => true
  | String c rest => Py.isspace c && all_space rest
  end.

(** Text made of ASCII characters only: the text on which the built-ins
    above are Python's. *)
Fixpoint is_ascii (s : string) : bool :=
  match s with
  | EmptyString => true
  | String c rest => (nat_of_ascii c <? 128)%nat && is_ascii rest
  end.

Fixpoint last_char (s : string) : option ascii :=
  match s with
  | EmptyString => None
  | String c EmptyString => Some c
  | String _ rest => last_char rest
  end.

(** The characters the entries of [trusted_domains] end with. *)
Definition trusted_ending (c : ascii) : bool :=
  (Ascii.eqb c "m" || Ascii.eqb c "g" || Ascii.eqb c "v" || Ascii.eqb c "u")%char.

(** An item of a search response that [search_urls] can turn into a
    candidate: it has the three keys read, and [urlparse] accepts its
    link. *)
Definition item_complete (E : Env) (item : gmap string string) : Prop :=
  (exists link, item !! "link" = Some link /\ urlparse_error E link = None) /\
  is_Some (item !! "title") /\ is_Some (item !! "snippet").

(** ** More cases for the examples *)

Module Cases.

(** A tool whose model answers every analysis request with [[]]. *)
Definition list_reply_tool : WebResearchTool :=
  {| env := Demo.table_env (inr None) Demo.pages (fun _ => inr "[]")
              (inl "unused");
     max_urls := 5 |}.

(** A search with two complete items. *)
Definition two_items_tool : WebResearchTool :=
  Demo.tool [Demo.nature; Demo.blog] (inr Demo.synthesis_reply) 5.

(** A search whose second item has a link [urlparse] raises on. *)
Definition bad_link : string := "http://[::1/x".

Definition bad_link_tool : WebResearchTool :=
  Demo.tool [Demo.nature; bad_link] (inl "unused") 5.

(** A search whose second item has no title. *)
Definition broken_item_tool : WebResearchTool :=
  {| env := Demo.table_env
              (inr (Some [Demo.item Demo.nature; {[ "link" := Demo.campus ]}]))
              Demo.pages Demo.replies (inl "unused");
     max_urls := 5 |}.

(** The limit set to zero. *)
Definition zero_tool : WebResearchTool :=
  Demo.tool [Demo.nature; Demo.campus] (inr Demo.synthesis_reply) 0.

Definition port_url : string := "https://www.nature.com:443/a".

(** The limit set to minus one. *)
Definition negative_tool : WebResearchTool :=
  Demo.tool [] (inl "unused") (-1).

(** The letter e with an acute accent, two bytes of UTF-8, and a text of
    6001 of them. *)
Definition e_acute : string :=
  String (ascii_of_nat 195) (String (ascii_of_nat 169) EmptyString).

Fixpoint repeat_text (n : nat) (s : string) : string :=
  match n with
  | O => EmptyString
  | S m => s +:+ repeat_text m s
  end.

Definition accents : string := repeat_text (Pos.to_nat 6001) e_acute.

(** [{"summary": "s", "key_findings": "k", "credibility": "c",
    "date": "d", "error": "x"}]: the four fields and an error key. *)
Definition flagged_reply : string :=
  "{" +:+ Demo.quoted "summary" +:+ ": " +:+ Demo.quoted "s" +:+ ", "
      +:+ Demo.quoted "key_findings" +:+ ": " +:+ Demo.quoted "k" +:+ ", "
      +:+ Demo.quoted "credibility" +:+ ": " +:+ Demo.quoted "c" +:+ ", "
      +:+ Demo.quoted "date" +:+ ": " +:+ Demo.quoted "d" +:+ ", "
      +:+ Demo.quoted "error" +:+ ": " +:+ Demo.quoted "x" +:+ "}".

Definition flagged_record : gmap string json :=
  <["error" := JStr "x"]> Demo.full_record.

(** A tool whose model answers every analysis request with that reply. *)
Definition flagged_tool : WebResearchTool :=
  {| env :=
       {| urlparse_netloc := Demo.netloc;
          urlparse_error := Demo.parse_error;
          json_loads := fun text =>
            if String.eqb text flagged_reply then inr (JObj flagged_record)
            else Demo.loads text;
          json_dumps := fun _ => "[...]"%string;
          cse_items := fun _ _ _ => inr None;
          page_elements := fun _ target => Demo.pages target;
          messages_create := fun _ _ _ _ _ => inr flagged_reply;
          now_isoformat := fun _ => "2024-01-01T00:00:00"%string |};
     max_urls := 5 |}.

(** A page whose paragraphs are blank. *)
Definition blank_elements : list string :=
  ["   "; String (ascii_of_nat 10) (String (ascii_of_nat 9) EmptyString); ""].

Definition blank_tool : WebResearchTool :=
  {| env := Demo.table_env (inr None) (fun _ => inr blank_elements)
              (fun _ => inl "unused") (inl "unused");
     max_urls := 5 |}.

End Cases.

(** ** The command-line entry point, [main] *)

(** What [main] shows and leaves behind. *)
Inductive console_event : Type :=
| Prompted (prompt : string)
| Printed (text : string)
| Wrote (filename content : string).

(** An exception that leaves [main]. *)
Inductive raised : Type :=
| KeyError (key : string)
| TypeError
| Raised (e : exn).

Inductive main_outcome : Type :=
| Returned
| Uncaught (r : raised).

(** [open('config.json')] followed by [json.load]. *)
Inductive config_file : Type :=
| ConfigNotFound
| ConfigRaises (e : exn)
| ConfigLoaded (config : json).

Record Host : Type := {
  load_config : config_file;
  (** the services reached with the three values of the configuration *)
  connect : json -> json -> json -> Env;
  (** [input(...)]: the line typed, or the exception of a closed input *)
  stdin_line : exn + string;
  (** [datetime.now().strftime("%Y%m%d_%H%M%S")] *)
  now_stamp : trace -> string;
  (** [open(filename, "w")] and the write: the exception, if any *)
  write_file : string -> string -> option exn;
  (** [str] of a list, a dictionary or a float *)
  repr_of : json -> string
}.

(** [config[key]]: only a dictionary can be subscripted by a string, and
    the key has to be there. *)
Definition subscript (config : json) (key : string) : raised + json :=
  match config with
  | JObj d =>
      match d !! key with
      | Some v => inr v
      | None => inl (KeyError key)
      end
  | _ => inl TypeError
  end.

(** [str(value)], as [print] and an f-string apply it. *)
Definition py_str (h : Host) (value : json) : string :=
  match value with
  | JNull => "None"
  | JBool true => "True"
  | JBool false => "False"
  | JInt z => pretty z
  | JStr s => s
  | other => repr_of h other
  end.

Definition not_found_message : string :=
  "Error: config.json not found. Please create it with your API keys.".

(** Lines 301 to 311: the summary printed after the run. *)
Definition print_summary (h : Host) (E : Env) (query filename : string)
    (results : gmap string json) : list console_event :=
  [ Printed (nl +:+ "Research Results Summary:");
    Printed ("Query: " +:+ query);
    Printed ("Sources analyzed: "
             +:+ py_str h (default (JInt 0) (results !! "sources_analyzed"))) ]
  ++ match results !! "synthesis" with
     | Some synthesis =>
         [ Printed (nl +:+ "Findings:");
           Printed (json_dumps E synthesis);
           Printed (nl +:+ "Full results saved to: " +:+ filename) ]
     | None =>
         [ Printed (nl +:+ "Error: "
                    +:+ py_str h (default (JStr "Unknown error") (results !! "error"))) ]
     end.

Definition main (h : Host) (tr : trace)
    : main_outcome * list console_event * trace :=
  match load_config h with
  | ConfigNotFound => (Returned, [Printed not_found_message], tr)
  | ConfigRaises e => (Uncaught (Raised e), [], tr)
  | ConfigLoaded config =>
      match subscript config "anthropic_api_key" with
      | inl r => (Uncaught r, [], tr)
      | inr anthropic_api_key =>
      match subscript config "google_api_key" with
      | inl r => (Uncaught r, [], tr)
      | inr google_api_key =>
      match subscript config "google_cse_id" with
      | inl r => (Uncaught r, [], tr)
      | inr google_cse_id =>
          let researcher :=
            {| env := connect h anthropic_api_key google_api_key google_cse_id;
               max_urls := 5 |} in
          let asked := [Prompted (nl +:+ "Enter your research question: ")] in
          match stdin_line h with
          | inl e => (Uncaught (Raised e), asked, tr)
          | inr query =>
              let started :=
                asked ++ [Printed (nl +:+ "Researching... This may take a few minutes.")] in
              let (results, tr1) := research researcher query tr in
              let timestamp := now_stamp h tr1 in
              let tr2 := tr1 ++ [EvNow] in
              let filename := "research_results_" +:+ timestamp +:+ ".json" in
              let content := json_dumps (env researcher) (JObj results) in
              match write_file h filename content with
              | Some e => (Uncaught (Raised e), started, tr2)
              | None =>
                  (Returned,
                   started ++ [Wrote filename content]
                     ++ print_summary h (env researcher) query filename results,
                   tr2)
              end
          end
      end end end
  end.

(** The tool [main] builds, when the configuration has the three keys. *)
Definition main_researcher (h : Host) (config : json) : option WebResearchTool :=
  match subscript config "anthropic_api_key",
        subscript config "google_api_key",
        subscript config "google_cse_id" with
  | inr a, inr g, inr c => Some {| env := connect h a g c; max_urls := 5 |}
  | _, _, _ => None
  end.

Module Terminal.

Definition config : json :=
  JObj (<["anthropic_api_key" := JStr "k1"]>
          (<["google_api_key" := JStr "k2"]>
            (<["google_cse_id" := JStr "k3"]> ∅))).

(** A host with a complete configuration, the question "q" typed, and the
    services of the given tool. *)
Definition host (file : config_file) (services : WebResearchTool) : Host :=
  {| load_config := file;
     connect := fun _ _ _ => env services;
     stdin_line := inr "q"%string;
     now_stamp := fun _ => "20240101_000000"%string;
     write_file := fun _ _ => None;
     repr_of := fun _ => "?"%string |}.

End Terminal.

(** ** ell-agentic-search.py: [web_search_tool] *)

Module AgenticSearch.

(** What the tool does to the outside: a GET request, with the [params]
    dictionary when it has one, or a line printed with a list of urls. *)
Inductive io_event : Type :=
| Get (target : string) (params : list (string * string))
| Print (label : string) (urls : list json).

Record response : Type := {
  status_code : Z;
  text : string
}.

Record Net : Type := {
  (** [requests.get(url, params=..., timeout=5)]: an exception or the
      response *)
  requests_get : list io_event -> string -> list (string * string) -> exn + response;
  (** [resp.json()], from the body *)
  response_json : string -> exn + json;
  (** [requests.utils.quote] *)
  quote : string -> string;
  (** [json.dumps] *)
  dumps : json -> string
}.

Definition IO (A : Type) : Type := list io_event -> A * list io_event.

Definition io_ret {A : Type} (a : A) : IO A := fun tr => (a, tr).

Definition io_bind {A B : Type} (m : IO A) (k : A -> IO B) : IO B :=
  fun tr => let (a, tr') := m tr in k a tr'.

Definition io_call {A : Type} (e : io_event) (answer : list io_event -> A) : IO A :=
  fun tr => (answer tr, tr ++ [e]).

Definition searx_base : string := "http://localhost:3002/search".

Definition search_params (query : string) : list (string * string) :=
  [ ("q", query); ("language", "auto"); ("time_range", "");
    ("safesearch", "0"); ("categories", "none") ]%string.

Definition google_url (N : Net) (query : string) : string :=
  searx_base +:+ "?q=" +:+ quote N ("!google " +:+ query)
    +:+ "&language=auto&time_range=&safesearch=0&categories=none".

(** [[result["url"] for result in results]] over a list: every element has
    to be a dictionary with the key, or the comprehension raises. *)
Fixpoint urls_of (results : list json) : option (list json) :=
  match results with
  | [] => Some []
  | JObj d :: rest =>
      match d !! "url" with
      | Some u =>
          match urls_of rest with
          | Some us => Some (u :: us)
          | None => None
          end
      | None => None
      end
  | _ :: _ => None
  end.

(** The same comprehension over [data.get("results", [])], whatever the
    body decoded to: [None] stands for the exception.  A dictionary is
    iterated by its keys and a string by its characters, which cannot be
    subscripted by ["url"]; a number, a boolean and null cannot be
    iterated; a value that is not a dictionary has no [get]. *)
Definition result_urls (data : json) : option (list json) :=
  match data with
  | JObj d =>
      match default (JArr []) (d !! "results") with
      | JArr results => urls_of results
      | JObj m => if decide (size m = 0%nat) then Some [] else None
      | JStr EmptyString => Some []
      | _ => None
      end
  | _ => None
  end.

(** One of the two [try] blocks: the first [limit] urls of the response,
    or the empty list. *)
Definition urls_from (N : Net) (resp : exn + response) (limit : Z) : list json :=
  match resp with
  | inl _ => []
  | inr r =>
      if status_code r =? 200 then
        match response_json N (text r) with
        | inl _ => []
        | inr data =>
            match result_urls data with
            | Some urls => Py.slice_to urls limit
            | None => []
            end
        end
      else []
  end.

(** [fetch_content]; [requests.get] raises, without a request, on a url that
    is not a string. *)
Definition fetch_content (N : Net) (u : json) : IO string :=
  match u with
  | JStr target =>
      io_bind (io_call (Get target []) (fun tr => requests_get N tr target []))
        (fun r =>
           match r with
           | inl _ => io_ret EmptyString
           | inr resp =>
               if status_code resp =? 200
               then io_ret (Py.strip (text resp))
               else io_ret EmptyString
           end)
  | _ => io_ret EmptyString
  end.

Definition entry (u : json) (content : string) : json :=
  JObj (<["url" := u]> (<["content" := JStr content]> ∅)).

(** [[{"url": url, "content": fetch_content(url)} for url in urls]] *)
Fixpoint fetch_all (N : Net) (urls : list json) : IO (list json) :=
  match urls with
  | [] => io_ret []
  | u :: rest =>
      io_bind (fetch_content N u) (fun content =>
      io_bind (fetch_all N rest) (fun entries =>
      io_ret (entry u content :: entries)))
  end.

(** The two url lists, as the tool has them after its two searches. *)
Definition searched_urls (N : Net) (query : string)
    : IO (list json * list json) :=
  io_bind (io_call (Get searx_base (search_params query))
             (fun tr => requests_get N tr searx_base (search_params query)))
    (fun resp =>
  let original_urls := urls_from N resp 3 in
  io_bind (io_call (Print "Original URLs:" original_urls) (fun _ => tt)) (fun _ =>
  io_bind (io_call (Get (google_url N query) [])
             (fun tr => requests_get N tr (google_url N query) []))
    (fun resp_google =>
  let google_urls := urls_from N resp_google 5 in
  io_bind (io_call (Print "Google URLs:" google_urls) (fun _ => tt)) (fun _ =>
  io_ret (original_urls, google_urls))))).

(** The dictionary [output] of the tool. *)
Definition search_output (N : Net) (query : string) : IO (gmap string json) :=
  io_bind (searched_urls N query) (fun '(original_urls, google_urls) =>
  io_bind (fetch_all N original_urls) (fun original_results =>
  io_bind (fetch_all N google_urls) (fun google_results =>
  io_ret (<["google_results" := JArr google_results]>
            (<["original_results" := JArr original_results]> ∅))))).

Definition web_search_tool (N : Net) (query : string) : IO string :=
  io_bind (search_output N query) (fun output => io_ret (dumps N (JObj output))).

(** The targets of the GET requests of a trace, in order. *)
Definition get_targets (tr : list io_event) : list string :=
  omap (fun e => match e with Get target _ => Some target | Print _ _ => None end) tr.

(** The urls of a list that are strings. *)
Definition string_urls (urls : list json) : list string :=
  omap (fun u => match u with JStr s => Some s | _ => None end) urls.

(** A result of the search that is a dictionary with a url. *)
Definition has_url (result : json) : Prop :=
  exists d u, result = JObj d /\ d !! "url" = Some u.

(** A network given by a table of pages; both searches answer with the
    same body. *)
Definition table_net (search_body : json) (pages : string -> exn + response) : Net :=
  {| requests_get := fun _ target params =>
       if String.eqb (String.substring 0 28 target) searx_base
       then inr {| status_code := 200; text := "results" |}
       else pages target;
     response_json := fun body =>
       if String.eqb body "results" then inr search_body
       else inl Demo.expecting_value;
     quote := fun s => s;
     dumps := fun _ => "{...}"%string |}.

Definition result (u : string) : json := JObj {[ "url" := JStr u ]}.

Definition pages (target : string) : exn + response :=
  if String.eqb target "http://a" then
    inr {| status_code := 200; text := "  page a  " |}
  else if String.eqb target "http://b" then
    inr {| status_code := 404; text := "not found" |}
  else inl "connection refused"%string.

(** Four results, and the same four with a fifth that has no url. *)
Definition four_results : json :=
  JObj {[ "results" := JArr [result "http://a"; result "http://b";
                             result "http://c"; result "http://a"] ]}.

Definition broken_results : json :=
  JObj {[ "results" := JArr [result "http://a"; result "http://b";
                             result "http://c"; result "http://a";
                             JObj {[ "title" := JStr "no url" ]}] ]}.

End AgenticSearch.

(** ** ell-editorial.py: the number of urls asked of the user *)

Module Editorial.

(** [str.isdigit] and [int] on ASCII text: a string that is not empty and
    has decimal digits only, and its value. *)
Definition is_digit (c : ascii) : bool :=
  (48 <=? nat_of_ascii c)%nat && (nat_of_ascii c <=? 57)%nat.

Fixpoint all_digits (s : string) : bool :=
  match s with
  | EmptyString => true
  | String c rest => is_digit c && all_digits rest
  end.

Definition isdigit (s : string) : bool := Py.truthy s && all_digits s.

Fixpoint int_from (acc : Z) (s : string) : Z :=
  match s with
  | EmptyString => acc
  | String c rest => int_from (10 * acc + (Z.of_nat (nat_of_ascii c) - 48)) rest
  end.

Definition int (s : string) : Z := int_from 0 s.

(** Lines 91 and 92: the line typed, stripped, read as a number when it is
    one, and 4 otherwise. *)
Definition chosen_max_urls (typed : string) : Z :=
  let num_urls_input := Py.strip typed in
  if isdigit num_urls_input then int num_urls_input else 4.

End Editorial.

(** ** Facts about the built-ins *)

Section StringFacts.

Lemma length_append (p t : string) :
  String.length (p +:+ t) = (String.length p + String.length t)%nat.
Proof. induction p as [|c p IH]; simpl; [reflexivity | now rewrite IH]. Qed.

Lemma substring_all (t : string) : String.substring 0 (String.length t) t = t.
Proof. induction t as [|c t IH]; simpl; [reflexivity | now rewrite IH]. Qed.

Lemma substring_append_r (p t : string) :
  String.substring (String.length p) (String.length t) (p +:+ t) = t.
Proof. induction p as [|c p IH]; simpl; [apply substring_all | exact IH]. Qed.

Lemma append_cons (c : ascii) (p t : string) :
  String c p +:+ t = String c (p +:+ t).
Proof. reflexivity. Qed.

Lemma substring_split (s : string) (i : nat) :
  (i <= String.length s)%nat ->
  s = String.substring 0 i s +:+ String.substring i (String.length s - i) s.
Proof.
  revert i. induction s as [|c s IH]; intros [|i] Hi; simpl in *.
  - reflexivity.
  - lia.
  - now rewrite substring_all.
  - rewrite append_cons. f_equal. apply IH. lia.
Qed.

(** [endswith] is the suffix relation on strings. *)
Lemma endswith_spec (s t : string) :
  Py.endswith s t = true <-> exists p, s = p +:+ t.
Proof.
  unfold Py.endswith. rewrite andb_true_iff, Nat.leb_le, String.eqb_eq. split.
  - intros [Hle Hsub]. remember (String.length t) as k eqn:Hk.
    exists (String.substring 0 (String.length s - k) s).
    rewrite <- Hsub.
    rewrite (substring_split s (String.length s - k)) at 1 by lia.
    do 2 f_equal. lia.
  - intros [p ->]. rewrite length_append. split; [lia |].
    replace (String.length p + String.length t - String.length t)%nat
      with (String.length p) by lia.
    apply substring_append_r.
Qed.

End StringFacts.

(** ** Facts about the filter *)

Section FilterFacts.

Context (self : WebResearchTool).

Lemma slice_to_nonneg {A : Type} (l : list A) (n : Z) :
  0 <= n -> Py.slice_to l n = take (Z.to_nat n) l.
Proof. intros Hn. unfold Py.slice_to. now rewrite (proj2 (Z.leb_le 0 n) Hn). Qed.

Lemma slice_to_take {A : Type} (l : list A) (n : Z) :
  exists k, Py.slice_to l n = take k l.
Proof. unfold Py.slice_to. destruct (0 <=? n); eauto. Qed.

Lemma is_trusted_spec (domain : string) :
  is_trusted domain = true <->
  exists t, t ∈ trusted_domains /\ exists p, domain = p +:+ t.
Proof.
  unfold is_trusted. rewrite existsb_exists. split.
  - intros (t & Hin & Hends). exists t. split.
    + now apply list_elem_of_In.
    + now apply endswith_spec.
  - intros (t & Hin & Hends). exists t. split.
    + now apply list_elem_of_In.
    + now apply endswith_spec.
Qed.

Lemma filter_loop_acc (urls acc : list url_data) :
  filter_loop self urls acc = acc ++ trusted_inputs self urls.
Proof.
  revert acc. induction urls as [|u urls IH]; intros acc; simpl.
  - now rewrite app_nil_r.
  - destruct (is_trusted (domain_of self u)); rewrite IH.
    + now rewrite <- app_assoc.
    + reflexivity.
Qed.

Lemma trusted_inputs_sublist (urls : list url_data) :
  trusted_inputs self urls `sublist_of` urls.
Proof.
  induction urls as [|u urls IH]; simpl.
  - constructor.
  - destruct (is_trusted (domain_of self u)); now constructor.
Qed.

Lemma trusted_inputs_elem (urls : list url_data) (c : url_data) :
  c ∈ trusted_inputs self urls <-> c ∈ urls /\ is_trusted (domain_of self c) = true.
Proof.
  unfold trusted_inputs. rewrite !list_elem_of_In, filter_In. tauto.
Qed.

Lemma filter_urls_take (urls : list url_data) :
  exists k, filter_urls self urls = take k (trusted_inputs self urls).
Proof.
  unfold filter_urls. rewrite filter_loop_acc. simpl. apply slice_to_take.
Qed.

Lemma filter_urls_nonneg (urls : list url_data) :
  0 <= max_urls self ->
  filter_urls self urls = take (Z.to_nat (max_urls self)) (trusted_inputs self urls).
Proof.
  intros Hn. unfold filter_urls. rewrite filter_loop_acc. simpl.
  now apply slice_to_nonneg.
Qed.

Lemma filter_urls_sublist_length (urls : list url_data) :
  0 <= max_urls self ->
  filter_urls self urls `sublist_of` urls /\
  Z.of_nat (List.length (filter_urls self urls))
    = Z.min (max_urls self) (Z.of_nat (List.length (trusted_inputs self urls))).
Proof.
  intros Hn. rewrite (filter_urls_nonneg urls Hn). split.
  - transitivity (trusted_inputs self urls).
    + apply sublist_take.
    + apply trusted_inputs_sublist.
  - rewrite length_take. lia.
Qed.

End FilterFacts.

(** ** The claims about the filter *)

(** C2. Every candidate [filter_urls] returns comes from its input and has
    a domain (the [netloc] of its url) that ends with, or is, an entry of
    the trusted list; a candidate whose domain ends with no entry is never
    returned. *)
Theorem filter_urls_only_trusted (self : WebResearchTool) (urls : list url_data) :
  (forall c, c ∈ filter_urls self urls ->
     c ∈ urls /\
     exists t, t ∈ trusted_domains /\ exists p, domain_of self c = p +:+ t) /\
  (forall c,
     (forall t, t ∈ trusted_domains -> ~ exists p, domain_of self c = p +:+ t) ->
     c ∉ filter_urls self urls).
Proof.
  assert (Hin : forall c, c ∈ filter_urls self urls ->
            c ∈ urls /\ is_trusted (domain_of self c) = true).
  { intros c Hc. destruct (filter_urls_take self urls) as [k Hk].
    rewrite Hk in Hc. apply subseteq_take in Hc.
    now apply trusted_inputs_elem. }
  split.
  - intros c Hc. destruct (Hin c Hc) as [Hurls Htr]. split; [exact Hurls |].
    now apply is_trusted_spec.
  - intros c Hno Hc. destruct (Hin c Hc) as [_ Htr].
    apply is_trusted_spec in Htr. destruct Htr as (t & Ht & Hp).
    exact (Hno t Ht Hp).
Qed.

(** Of three candidates the trusted two are returned, and the one on
    "randomblog.xyz", which ends with no entry, is not. *)
Lemma filter_urls_only_trusted_witness :
  (Demo.candidate Demo.nature ∈ Demo.mixed_urls /\
   exists t, t ∈ trusted_domains /\
     exists p, domain_of Demo.analyzer_tool (Demo.candidate Demo.nature) = p +:+ t) /\
  Demo.candidate Demo.blog ∉ filter_urls Demo.analyzer_tool Demo.mixed_urls.
Proof.
  destruct (filter_urls_only_trusted Demo.analyzer_tool Demo.mixed_urls)
    as [Hout Hnot].
  split.
  - apply Hout. vm_compute. left.
  - apply Hnot. intros t Ht Hp.
    assert (Htr : is_trusted (domain_of Demo.analyzer_tool
                                (Demo.candidate Demo.blog)) = true)
      by (apply is_trusted_spec; eauto).
    vm_compute in Htr. discriminate Htr.
Defined.

(** C3. For a limit that is not negative, the output of [filter_urls] is a
    subsequence of its input, it is the first [max_urls] of the trusted
    members of the input (the cut comes after the filter), and so its
    length is the smaller of the limit and the number of trusted inputs. *)
Theorem filter_urls_stable_bounded (self : WebResearchTool) (urls : list url_data) :
  0 <= max_urls self ->
  filter_urls self urls `sublist_of` urls /\
  filter_urls self urls = take (Z.to_nat (max_urls self)) (trusted_inputs self urls) /\
  Z.of_nat (List.length (filter_urls self urls))
    = Z.min (max_urls self) (Z.of_nat (List.length (trusted_inputs self urls))) /\
  Z.of_nat (List.length (filter_urls self urls))
    <= Z.min (max_urls self) (Z.of_nat (List.length (trusted_inputs self urls))).
Proof.
  intros Hn.
  destruct (filter_urls_sublist_length self urls Hn) as [Hsub Hlen].
  repeat split.
  - exact Hsub.
  - now apply filter_urls_nonneg.
  - exact Hlen.
  - rewrite Hlen. lia.
Qed.

(** The cut comes after the filter: with a limit of two, an untrusted first
    candidate does not use up a place. *)
Lemma filter_urls_stable_bounded_witness :
  filter_urls Demo.pair_tool Demo.mixed_urls `sublist_of` Demo.mixed_urls /\
  filter_urls Demo.pair_tool Demo.mixed_urls
    = [Demo.candidate Demo.nature; Demo.candidate Demo.clone] /\
  trusted_inputs Demo.pair_tool (Py.slice_to Demo.mixed_urls 2)
    = [Demo.candidate Demo.nature].
Proof.
  destruct (filter_urls_stable_bounded Demo.pair_tool Demo.mixed_urls)
    as (Hsub & Htake & _).
  - vm_compute. discriminate.
  - split; [exact Hsub |]. split; [rewrite Htake |]; vm_compute; reflexivity.
Defined.

(** C10, as the code has it. A candidate whose domain is any characters
    followed by an entry of the trusted list, with or without a dot before
    the entry, is classified as trusted; it is in the output when fewer
    than [max_urls] trusted candidates come before it in the input. *)
Theorem suffix_without_boundary_trusted
    (self : WebResearchTool) (before after : list url_data) (c : url_data)
    (t p : string) :
  t ∈ trusted_domains ->
  domain_of self c = p +:+ t ->
  is_trusted (domain_of self c) = true /\
  (Z.of_nat (List.length (trusted_inputs self before)) < max_urls self ->
   c ∈ filter_urls self (before ++ c :: after)).
Proof.
  intros Ht Hp.
  assert (Htr : is_trusted (domain_of self c) = true)
    by (apply is_trusted_spec; eauto).
  split; [exact Htr |]. intros Hlt.
  rewrite filter_urls_nonneg by lia.
  unfold trusted_inputs. rewrite List.filter_app. cbn [List.filter].
  rewrite Htr. apply elem_of_take.
  exists (List.length (List.filter (fun u => is_trusted (domain_of self u)) before)).
  split.
  - now rewrite list_lookup_middle.
  - unfold trusted_inputs in Hlt. lia.
Qed.

(** The hosts "notrealgov" and "clonegithub.com" pass the filter. *)
Lemma suffix_without_boundary_trusted_witness :
  (is_trusted (domain_of Demo.analyzer_tool (Demo.candidate Demo.fakegov)) = true /\
   Demo.candidate Demo.fakegov ∈ filter_urls Demo.analyzer_tool Demo.lookalike_urls) /\
  (is_trusted (domain_of Demo.analyzer_tool (Demo.candidate Demo.clone)) = true /\
   Demo.candidate Demo.clone ∈ filter_urls Demo.analyzer_tool Demo.lookalike_urls).
Proof.
  split.
  - destruct (suffix_without_boundary_trusted Demo.analyzer_tool
                [Demo.candidate Demo.blog] [Demo.candidate Demo.clone]
                (Demo.candidate Demo.fakegov) "gov" "notreal") as [Htr Hin].
    + vm_compute. do 6 right. left.
    + vm_compute. reflexivity.
    + split; [exact Htr |]. apply Hin. vm_compute. reflexivity.
  - destruct (suffix_without_boundary_trusted Demo.analyzer_tool
                [Demo.candidate Demo.blog; Demo.candidate Demo.fakegov] []
                (Demo.candidate Demo.clone) "github.com" "clone") as [Htr Hin].
    + vm_compute. do 8 right. left.
    + vm_compute. reflexivity.
    + split; [exact Htr |]. apply Hin. vm_compute. reflexivity.
Defined.

(** C10 fails as stated: with a limit of one, the candidate on
    "clonegithub.com" is classified as trusted and is not in the output,
    the place being taken by the trusted candidate before it. *)
Lemma truncated_trusted_counterexample :
  domain_of Demo.single_tool (Demo.candidate Demo.clone) = "clone" +:+ "github.com" /\
  is_trusted (domain_of Demo.single_tool (Demo.candidate Demo.clone)) = true /\
  Demo.candidate Demo.clone ∈ Demo.crowded_urls /\
  Demo.candidate Demo.clone ∉ filter_urls Demo.single_tool Demo.crowded_urls.
Proof.
  split; [vm_compute; reflexivity |].
  split; [vm_compute; reflexivity |]. split.
  - apply list_elem_of_In. right. left. reflexivity.
  - assert (Hout : filter_urls Demo.single_tool Demo.crowded_urls
                   = [Demo.candidate Demo.nature])
      by (vm_compute; reflexivity).
    rewrite Hout. intros Hin. apply list_elem_of_singleton in Hin.
    vm_compute in Hin. discriminate Hin.
Qed.

(** ** Facts about the stages *)

Section PipelineFacts.

Context (self : WebResearchTool).

Lemma error_record_lookup_url (u : url_data) (msg : string) :
  error_record u msg !! "url" = Some (JStr (url u)).
Proof. reflexivity. Qed.

Lemma error_record_dom (u : url_data) (msg : string) :
  dom (error_record u msg) = ({[ "url"; "error" ]} : gset string).
Proof. unfold error_record. rewrite !dom_insert_L, dom_empty_L. set_solver. Qed.

Lemma url_data_dict_dom (u : url_data) :
  dom (url_data_dict u) = ({[ "url"; "title"; "snippet"; "source" ]} : gset string).
Proof. unfold url_data_dict. rewrite !dom_insert_L, dom_empty_L. set_solver. Qed.

(** Every candidate [search_urls] builds has, as its source, the [netloc]
    of its url: the domain the filter computes again. *)
Lemma collect_items_source (items : list (gmap string string))
    (acc out : list url_data) :
  Forall (fun c => source c = domain_of self c) acc ->
  collect_items self items acc = inr out ->
  Forall (fun c => source c = domain_of self c) out.
Proof.
  revert acc. induction items as [|item items IH]; intros acc Hacc Hout.
  - simpl in Hout. now inversion Hout; subst.
  - simpl in Hout.
    destruct (candidate_of_item self item) as [e|c] eqn:Hc; [discriminate |].
    apply (IH (acc ++ [c])); [| exact Hout].
    apply Forall_app. split; [exact Hacc |]. constructor; [| constructor].
    unfold candidate_of_item in Hc.
    destruct (item !! "link"); [| discriminate].
    destruct (item !! "title"); [| discriminate].
    destruct (item !! "snippet"); [| discriminate].
    destruct (urlparse_error (env self) _); [discriminate |].
    inversion Hc; subst. reflexivity.
Qed.

Lemma search_urls_source (query : string) (tr : trace) :
  Forall (fun c => source c = domain_of self c) (fst (search_urls self query tr)).
Proof.
  unfold search_urls, bind, call. simpl.
  destruct (cse_items (env self) tr query (max_urls self)) as [e|items];
    simpl; [constructor |].
  destruct (collect_items self (default [] items) []) as [e|out] eqn:Hout;
    simpl; [constructor |].
  eapply collect_items_source; [| exact Hout]. constructor.
Qed.

(** What [extract_text_from_url] leaves in the trace: the fetch, and a
    log line when it failed; never a model call. *)
Lemma extract_no_model_call (target : string) (tr : trace) :
  model_calls (snd (extract_text_from_url self target tr)) = model_calls tr.
Proof.
  unfold extract_text_from_url, bind, call, logger_error, ret, model_calls.
  simpl. destruct (page_elements (env self) tr target); simpl;
    rewrite ?List.filter_app, ?length_app; simpl; lia.
Qed.

(** The shape of every record [analyze_webpage] returns. *)
Lemma analyze_webpage_cases (u : url_data) (query : string) (tr : trace) :
  (exists msg, fst (analyze_webpage self u query tr) = error_record u msg) \/
  (exists text d, json_loads (env self) text = inr (JObj d) /\
     fst (analyze_webpage self u query tr) = url_data_dict u ∪ d).
Proof.
  unfold analyze_webpage, bind. simpl.
  destruct (extract_text_from_url self (url u) tr) as [[[|c content]|] tr1];
    simpl; [left; eauto | | left; eauto].
  unfold call.
  destruct (messages_create _ _ _ _ _ _) as [e|text]; simpl; [left; eauto |].
  destruct (json_loads (env self) text) as [e|analysis] eqn:Hloads;
    simpl; [left; eauto |].
  destruct analysis; simpl; try (left; eauto; fail).
  right. eauto.
Qed.

Lemma analyze_webpage_url (u : url_data) (query : string) (tr : trace) :
  fst (analyze_webpage self u query tr) !! "url" = Some (JStr (url u)).
Proof.
  destruct (analyze_webpage_cases u query tr) as [[msg ->] | (text & d & _ & ->)].
  - apply error_record_lookup_url.
  - apply lookup_union_Some_l. reflexivity.
Qed.

(** The analysis of a candidate without text. *)
Lemma analyze_webpage_not_extracted (u : url_data) (query : string) (tr : trace) :
  fst (extract_text_from_url self (url u) tr) = None \/
  fst (extract_text_from_url self (url u) tr) = Some EmptyString ->
  fst (analyze_webpage self u query tr)
    = error_record u "Failed to extract content".
Proof.
  intros Hext. unfold analyze_webpage, bind.
  destruct (extract_text_from_url self (url u) tr) as [content tr1].
  simpl in Hext. destruct Hext as [-> | ->]; reflexivity.
Qed.

(** The analysis of a candidate whose text was extracted: the model call
    and the decoding decide the record. *)
Lemma analyze_webpage_extracted (u : url_data) (query content : string)
    (tr tr1 : trace) :
  extract_text_from_url self (url u) tr = (Some content, tr1) ->
  content <> "" ->
  fst (analyze_webpage self u query tr) =
    match analysis_outcome self u query content tr1 with
    | inl e => error_record u e
    | inr analysis =>
        match update_with analysis u with
        | inl e => error_record u e
        | inr merged => merged
        end
    end.
Proof.
  intros Hext Hne. unfold analyze_webpage, bind. rewrite Hext.
  destruct content as [|c content]; [congruence |].
  unfold analysis_outcome, decoded_reply, call. simpl.
  destruct (messages_create _ _ _ _ _ _) as [e|text]; simpl; [reflexivity |].
  destruct (json_loads (env self) text) as [e|analysis]; simpl; [reflexivity |].
  destruct (update_with analysis u); reflexivity.
Qed.

(** The loop appends, in order, the analysis of each candidate. *)
Lemma analyze_loop_records (us : list url_data) (query : string)
    (acc : list (gmap string json)) (tr : trace) :
  exists rs,
    fst (analyze_loop self us query acc tr) = acc ++ rs /\
    Forall2 (fun u r => exists tr', r = fst (analyze_webpage self u query tr'))
      us rs.
Proof.
  revert acc tr. induction us as [|u us IH]; intros acc tr.
  - exists []. split; [simpl; now rewrite app_nil_r | constructor].
  - cbn [analyze_loop]. unfold bind at 1. unfold logger_info at 1, call at 1.
    unfold bind at 1.
    destruct (analyze_webpage self u query _) as [r tr1] eqn:Hr.
    unfold bind at 1, time_sleep, call at 1.
    destruct (IH (acc ++ [r]) (tr1 ++ [EvSleep 1])) as (rs & Hrs & Hall).
    exists (r :: rs). split.
    + rewrite Hrs. now rewrite <- app_assoc.
    + constructor; [| exact Hall]. eexists. now rewrite Hr.
Qed.

End PipelineFacts.

(** ** The claims about the analyzer *)

(** C4. When the extracted text is absent or empty, [analyze_webpage]
    returns the record of the url and an error, with none of summary,
    key_findings and credibility, and the trace holds no model call more
    than before. *)
Theorem analyze_webpage_short_circuit
    (self : WebResearchTool) (u : url_data) (query : string) (tr : trace) :
  fst (extract_text_from_url self (url u) tr) = None \/
  fst (extract_text_from_url self (url u) tr) = Some ""%string ->
  let out := analyze_webpage self u query tr in
  fst out = error_record u "Failed to extract content" /\
  fst out !! "url" = Some (JStr (url u)) /\
  is_Some (fst out !! "error") /\
  fst out !! "summary" = None /\
  fst out !! "key_findings" = None /\
  fst out !! "credibility" = None /\
  model_calls (snd out) = model_calls tr.
Proof.
  intros Hext out.
  assert (Hout : fst out = error_record u "Failed to extract content" /\
                 model_calls (snd out) = model_calls tr).
  { subst out. pose proof (extract_no_model_call self (url u) tr) as Hcalls.
    unfold analyze_webpage, bind.
    destruct (extract_text_from_url self (url u) tr) as [content tr1].
    simpl in Hext, Hcalls.
    destruct Hext as [-> | ->]; simpl; auto. }
  destruct Hout as [Hrec Hcalls]. rewrite Hrec.
  repeat split; try reflexivity; try exact Hcalls.
  eexists. reflexivity.
Qed.

(** The short circuit at a page whose fetch fails. *)
Lemma analyze_webpage_short_circuit_witness :
  fst (analyze_webpage Demo.analyzer_tool (Demo.candidate Demo.arxiv) "q" [])
    = error_record (Demo.candidate Demo.arxiv) "Failed to extract content" /\
  model_calls
    (snd (analyze_webpage Demo.analyzer_tool (Demo.candidate Demo.arxiv) "q" []))
    = 0%nat.
Proof.
  pose proof (analyze_webpage_short_circuit Demo.analyzer_tool
                (Demo.candidate Demo.arxiv) "q" []) as H.
  destruct H as (Hrec & _ & _ & _ & _ & _ & Hcalls).
  - left. vm_compute. reflexivity.
  - split; [exact Hrec | exact Hcalls].
Defined.

(** C5. A model call that fails, or a reply that does not decode, gives the
    record of the url and the message of the failure for that candidate;
    and whatever the candidates give, the loop of [research] appends one
    record per candidate, in order, each the analysis of its candidate. *)
Theorem analysis_failure_is_per_source (self : WebResearchTool) :
  (forall (u : url_data) (query content : string) (tr tr1 : trace) (msg : exn),
     extract_text_from_url self (url u) tr = (Some content, tr1) ->
     content <> ""%string ->
     analysis_outcome self u query content tr1 = inl msg ->
     fst (analyze_webpage self u query tr) = error_record u msg) /\
  (forall (us : list url_data) (query : string)
          (acc : list (gmap string json)) (tr : trace),
     exists rs : list (gmap string json),
       fst (analyze_loop self us query acc tr) = acc ++ rs /\
       List.length rs = List.length us /\
       Forall2 (fun u r => exists tr', r = fst (analyze_webpage self u query tr'))
         us rs /\
       Forall2 (fun u r => r !! "url" = Some (JStr (url u))) us rs).
Proof.
  split.
  - intros u query content tr tr1 msg Hext Hne Hout.
    rewrite (analyze_webpage_extracted self u query content tr tr1 Hext Hne).
    now rewrite Hout.
  - intros us query acc tr.
    destruct (analyze_loop_records self us query acc tr) as (rs & Hrs & Hall).
    exists rs. repeat split.
    + exact Hrs.
    + symmetry. exact (Forall2_length _ _ _ Hall).
    + exact Hall.
    + eapply Forall2_impl; [exact Hall |].
      intros u r [tr' ->]. apply analyze_webpage_url.
Qed.

(** Three candidates, the second with a reply that is not JSON: its record
    is the error, and the loop still gives three records. *)
Lemma analysis_failure_is_per_source_witness :
  fst (analyze_webpage Demo.analyzer_tool (Demo.candidate Demo.github) "q" [])
    = error_record (Demo.candidate Demo.github) Demo.expecting_value /\
  exists rs : list (gmap string json),
    fst (analyze_loop Demo.analyzer_tool Demo.three_urls "q" [] []) = rs /\
    List.length rs = 3%nat.
Proof.
  destruct (analysis_failure_is_per_source Demo.analyzer_tool) as [Hone Hloop].
  split.
  - eapply Hone.
    + vm_compute. reflexivity.
    + discriminate.
    + vm_compute. reflexivity.
  - destruct (Hloop Demo.three_urls "q"%string [] []) as (rs & Hrs & Hlen & _).
    exists rs. split; [exact Hrs | exact Hlen].
Defined.

(** The analysis fields of a merged record are those of the decoded object:
    the candidate writes only url, title, snippet and source. *)
Lemma merged_lookup (u : url_data) (d : gmap string json) (k : string) :
  k <> "url"%string -> k <> "title"%string ->
  k <> "snippet"%string -> k <> "source"%string ->
  (url_data_dict u ∪ d) !! k = d !! k.
Proof.
  intros H1 H2 H3 H4. apply lookup_union_r. unfold url_data_dict.
  rewrite !lookup_insert_ne by congruence. apply lookup_empty.
Qed.

Lemma merged_all_or_nothing (u : url_data) (d : gmap string json) :
  all_or_nothing (url_data_dict u ∪ d) = all_or_nothing d.
Proof.
  unfold all_or_nothing, has_key.
  rewrite !merged_lookup by discriminate. reflexivity.
Qed.

(** C6, as the code has it. On every failure path (no text extracted, a
    failed model call, a reply that does not decode, a reply that decodes to
    something other than an object) the record holds exactly the url and
    the error of that path; on the success path it is the decoded object
    with the candidate's url, title, snippet and source written over it,
    whatever keys that object has, so it is all-or-nothing exactly when the
    decoded object is. *)
Theorem analyze_webpage_record_shape
    (self : WebResearchTool) (u : url_data) (query : string) (tr : trace) :
  let r := fst (analyze_webpage self u query tr) in
  let failure (msg : string) :=
    r = error_record u msg /\
    dom r = ({[ "url"; "error" ]} : gset string) /\
    all_or_nothing r = true in
  match fst (extract_text_from_url self (url u) tr) with
  | Some (String c rest) =>
      match analysis_outcome self u query (String c rest)
              (snd (extract_text_from_url self (url u) tr)) with
      | inl msg => failure msg
      | inr (JObj d) =>
          r = url_data_dict u ∪ d /\
          dom r = ({[ "url"; "title"; "snippet"; "source" ]} : gset string) ∪ dom d /\
          all_or_nothing r = all_or_nothing d
      | inr other =>
          failure ("'" +:+ type_name other +:+ "' object has no attribute 'update'")
      end
  | _ => failure "Failed to extract content"
  end.
Proof.
  intros r failure.
  assert (Hfail : forall msg, r = error_record u msg -> failure msg).
  { intros msg Hr. unfold failure. rewrite Hr. split; [reflexivity |].
    split; [apply error_record_dom | reflexivity]. }
  destruct (extract_text_from_url self (url u) tr) as [content tr1] eqn:Hext.
  cbn [fst snd].
  destruct content as [[|c rest]|].
  - apply Hfail. subst r. apply analyze_webpage_not_extracted.
    rewrite Hext. now right.
  - assert (Hr : r = match analysis_outcome self u query (String c rest) tr1 with
                     | inl e => error_record u e
                     | inr analysis =>
                         match update_with analysis u with
                         | inl e => error_record u e
                         | inr merged => merged
                         end
                     end).
    { subst r. apply (analyze_webpage_extracted self u query (String c rest) tr tr1);
        [exact Hext | discriminate]. }
    destruct (analysis_outcome self u query (String c rest) tr1) as [msg|reply].
    + now apply Hfail.
    + destruct reply; try (now apply Hfail).
      cbn [update_with] in Hr. rewrite Hr. split; [reflexivity |]. split.
      * rewrite dom_union_L. now rewrite url_data_dict_dom.
      * apply merged_all_or_nothing.
  - apply Hfail. subst r. apply analyze_webpage_not_extracted.
    rewrite Hext. now left.
Qed.

(** C6 fails as stated: a reply that decodes to an object with only a
    summary gives a record with a summary, no key_findings and no error. *)
Lemma partial_mix_counterexample :
  all_or_nothing
    (fst (analyze_webpage Demo.analyzer_tool (Demo.candidate Demo.fakegov) "q" []))
    = false /\
  fst (analyze_webpage Demo.analyzer_tool (Demo.candidate Demo.fakegov) "q" [])
    !! "summary" = Some (JStr "s") /\
  fst (analyze_webpage Demo.analyzer_tool (Demo.candidate Demo.fakegov) "q" [])
    !! "key_findings" = None /\
  fst (analyze_webpage Demo.analyzer_tool (Demo.candidate Demo.fakegov) "q" [])
    !! "error" = None.
Proof. vm_compute. repeat split. Qed.

(** C9, as the code has it. When the text is extracted and not empty and
    the reply decodes to an object with the four fields and no error key,
    the resulting record has no error key, has the four fields as the
    model gave them, and has the candidate's url, title, snippet and
    source (its domain). *)
Theorem analyze_webpage_success
    (self : WebResearchTool) (u : url_data) (query content : string)
    (tr tr1 : trace) (d : gmap string json) :
  extract_text_from_url self (url u) tr = (Some content, tr1) ->
  content <> ""%string ->
  analysis_outcome self u query content tr1 = inr (JObj d) ->
  is_Some (d !! "summary") ->
  is_Some (d !! "key_findings") ->
  is_Some (d !! "credibility") ->
  is_Some (d !! "date") ->
  d !! "error" = None ->
  let r := fst (analyze_webpage self u query tr) in
  r !! "error" = None /\
  (r !! "summary" = d !! "summary" /\ is_Some (r !! "summary")) /\
  (r !! "key_findings" = d !! "key_findings" /\ is_Some (r !! "key_findings")) /\
  (r !! "credibility" = d !! "credibility" /\ is_Some (r !! "credibility")) /\
  (r !! "date" = d !! "date" /\ is_Some (r !! "date")) /\
  r !! "url" = Some (JStr (url u)) /\
  r !! "title" = Some (JStr (title u)) /\
  r !! "snippet" = Some (JStr (snippet u)) /\
  r !! "source" = Some (JStr (source u)).
Proof.
  intros Hext Hne Hout Hsum Hkey Hcred Hdate Hno r. subst r.
  rewrite (analyze_webpage_extracted self u query content tr tr1 Hext Hne).
  rewrite Hout. simpl.
  rewrite !merged_lookup by discriminate.
  repeat split; try assumption;
    apply lookup_union_Some_l; reflexivity.
Qed.

(** A page with text and the four-field reply. *)
Lemma analyze_webpage_success_witness :
  fst (analyze_webpage Demo.analyzer_tool (Demo.candidate Demo.nature) "q" [])
    !! "error" = None /\
  fst (analyze_webpage Demo.analyzer_tool (Demo.candidate Demo.nature) "q" [])
    !! "summary" = Some (JStr "s") /\
  fst (analyze_webpage Demo.analyzer_tool (Demo.candidate Demo.nature) "q" [])
    !! "source" = Some (JStr "www.nature.com").
Proof.
  pose proof (analyze_webpage_success Demo.analyzer_tool
                (Demo.candidate Demo.nature) "q"
                ("Hello" +:+ nl +:+ "World")
                [] [EvFetch Demo.nature] Demo.full_record) as H.
  destruct H as (Herr & [Hsum _] & _ & _ & _ & _ & _ & _ & Hsrc).
  - vm_compute. reflexivity.
  - discriminate.
  - vm_compute. reflexivity.
  - eexists. reflexivity.
  - eexists. reflexivity.
  - eexists. reflexivity.
  - eexists. reflexivity.
  - reflexivity.
  - split; [exact Herr |]. split; [rewrite Hsum; reflexivity | exact Hsrc].
Defined.

(** C9 fails as stated: the text is extracted, the reply decodes and has
    the four fields, and since it has an error key too, so has the
    record. *)
Lemma error_key_counterexample :
  extract_text_from_url Cases.flagged_tool (url (Demo.candidate Demo.campus)) []
    = (Some "Paper"%string, [EvFetch Demo.campus]) /\
  analysis_outcome Cases.flagged_tool (Demo.candidate Demo.campus) "q" "Paper"
    [EvFetch Demo.campus] = inr (JObj Cases.flagged_record) /\
  (is_Some (Cases.flagged_record !! "summary") /\
   is_Some (Cases.flagged_record !! "key_findings") /\
   is_Some (Cases.flagged_record !! "credibility") /\
   is_Some (Cases.flagged_record !! "date")) /\
  fst (analyze_webpage Cases.flagged_tool (Demo.candidate Demo.campus) "q" [])
    !! "error" = Some (JStr "x").
Proof.
  split; [vm_compute; reflexivity |]. split; [vm_compute; reflexivity |].
  split; [repeat split; eexists; reflexivity |].
  vm_compute. reflexivity.
Qed.

(** ** Facts about a whole run *)

Section RunFacts.

Context (self : WebResearchTool).

(** [research] read stage by stage. *)
Lemma research_run (query : string) (tr : trace) :
  research self query tr =
    match candidates self query tr with
    | [] => ({[ "error" := JStr "No search results found" ]},
             snd (discovery self query tr))
    | _ :: _ =>
        match filtered self query tr with
        | [] => ({[ "error" := JStr "No reliable sources found" ]},
                 snd (discovery self query tr))
        | _ :: _ =>
            compile_findings self query (gathered self query tr)
              (snd (analysis_stage self query tr))
        end
    end.
Proof.
  unfold gathered, analysis_stage, filtered, candidates, discovery, research, bind.
  destruct (logger_info _ tr) as [[] tr0].
  destruct (search_urls self query tr0) as [[|c cs] tr1]; simpl; [reflexivity |].
  destruct (filter_urls self (c :: cs)) as [|f fs]; [reflexivity |].
  destruct (analyze_loop self (f :: fs) query [] tr1) as [analyses tr2].
  reflexivity.
Qed.

Lemma filter_urls_nil : filter_urls self [] = [].
Proof.
  unfold filter_urls, Py.slice_to. cbn [filter_loop].
  destruct (0 <=? max_urls self); apply take_nil.
Qed.

Lemma filtered_candidates (query : string) (tr : trace) :
  filtered self query tr <> [] -> candidates self query tr <> [].
Proof.
  unfold filtered. intros Hf Hc. rewrite Hc in Hf.
  now rewrite filter_urls_nil in Hf.
Qed.

(** A run that gets past the filter ends in [compile_findings]. *)
Lemma research_reaches_synthesis (query : string) (tr : trace) :
  filtered self query tr <> [] ->
  research self query tr =
    compile_findings self query (gathered self query tr)
      (snd (analysis_stage self query tr)).
Proof.
  intros Hf. pose proof (filtered_candidates query tr Hf) as Hc.
  rewrite research_run.
  destruct (candidates self query tr); [congruence |].
  destruct (filtered self query tr); [congruence | reflexivity].
Qed.

(** The two shapes [compile_findings] returns. *)
Lemma compile_findings_outcome (query : string)
    (analyses : list (gmap string json)) (tr : trace) :
  exists ts : string,
    fst (compile_findings self query analyses tr) =
      match decoded_reply self tr 1500 synthesis_system
              (synthesis_prompt query
                 (json_dumps (env self) (webpage_analyses_json analyses))) with
      | inl e => <["error" := JStr e]> (run_record query ts analyses)
      | inr synthesis =>
          <["synthesis" := synthesis]> (run_record query ts analyses)
      end.
Proof.
  unfold compile_findings, decoded_reply, synthesis_failed, bind, call,
    logger_error, ret. simpl.
  destruct (messages_create _ _ _ _ _ _) as [e|text]; simpl; [eauto |].
  destruct (json_loads (env self) text) as [e|synthesis]; simpl; eauto.
Qed.

(** The records gathered by a run: one per filtered candidate, in order. *)
Lemma gathered_records (query : string) (tr : trace) :
  Forall2 (fun u r => exists tr', r = fst (analyze_webpage self u query tr'))
    (filtered self query tr) (gathered self query tr).
Proof.
  unfold gathered, analysis_stage.
  destruct (analyze_loop_records self (filtered self query tr) query []
              (snd (discovery self query tr))) as (rs & Hrs & Hall).
  rewrite Hrs. exact Hall.
Qed.

Lemma gathered_length (query : string) (tr : trace) :
  List.length (gathered self query tr) = List.length (filtered self query tr).
Proof. symmetry. exact (Forall2_length _ _ _ (gathered_records query tr)). Qed.

End RunFacts.

(** ** The claims about a whole run *)

(** C1. When the synthesis call fails or its reply does not decode, a run
    that got past the filter returns the query, a timestamp,
    sources_analyzed, every record the loop gathered, in order, and the
    error message; it has no synthesis key, and the gathered records are
    one per filtered candidate. *)
Theorem synthesis_failure_keeps_analyses
    (self : WebResearchTool) (query : string) (tr : trace) (msg : exn) :
  filtered self query tr <> [] ->
  synthesis_outcome self query tr = inl msg ->
  exists ts : string,
    let result := fst (research self query tr) in
    result = <["error" := JStr msg]> (run_record query ts (gathered self query tr)) /\
    result !! "query" = Some (JStr query) /\
    result !! "timestamp" = Some (JStr ts) /\
    result !! "sources_analyzed"
      = Some (JInt (Z.of_nat (List.length (gathered self query tr)))) /\
    result !! "webpage_analyses" = Some (JArr (JObj <$> gathered self query tr)) /\
    result !! "error" = Some (JStr msg) /\
    result !! "synthesis" = None /\
    List.length (gathered self query tr) = List.length (filtered self query tr) /\
    Forall2 (fun u r => exists tr', r = fst (analyze_webpage self u query tr'))
      (filtered self query tr) (gathered self query tr).
Proof.
  intros Hf Hsyn.
  destruct (compile_findings_outcome self query (gathered self query tr)
              (snd (analysis_stage self query tr))) as [ts Hts].
  unfold synthesis_outcome in Hsyn. rewrite Hsyn in Hts.
  exists ts. cbv zeta. rewrite (research_reaches_synthesis self query tr Hf), Hts.
  repeat split; try reflexivity.
  - apply gathered_length.
  - apply gathered_records.
Qed.

(** Three sources, the second with a failed extraction, and a synthesis
    reply that is not JSON. *)
Lemma synthesis_failure_keeps_analyses_witness :
  fst (research Demo.degraded_run "q" []) !! "sources_analyzed" = Some (JInt 3) /\
  fst (research Demo.degraded_run "q" []) !! "webpage_analyses"
    = Some (JArr [ JObj (url_data_dict (Demo.candidate Demo.nature) ∪ Demo.full_record);
                   JObj (error_record (Demo.candidate Demo.arxiv)
                           "Failed to extract content");
                   JObj (url_data_dict (Demo.candidate Demo.campus) ∪ Demo.full_record) ]) /\
  fst (research Demo.degraded_run "q" []) !! "error" = Some (JStr Demo.expecting_value) /\
  fst (research Demo.degraded_run "q" []) !! "synthesis" = None.
Proof.
  destruct (synthesis_failure_keeps_analyses Demo.degraded_run "q" []
              Demo.expecting_value)
    as (ts & _ & _ & _ & Hn & Hrs & Herr & Hsyn & _).
  - vm_compute. discriminate.
  - vm_compute. reflexivity.
  - cbv zeta in *. rewrite Hn, Hrs, Herr, Hsyn.
    repeat split; vm_compute; reflexivity.
Defined.

(** C7. For a limit that is not negative, a run that got past the filter
    returns sources_analyzed equal to the length of webpage_analyses, both
    the number of filtered candidates, each analysed once, and at most
    [max_urls]. *)
Theorem sources_analyzed_counts
    (self : WebResearchTool) (query : string) (tr : trace) :
  0 <= max_urls self ->
  filtered self query tr <> [] ->
  exists (n : Z) (records : list json),
    let result := fst (research self query tr) in
    result !! "sources_analyzed" = Some (JInt n) /\
    result !! "webpage_analyses" = Some (JArr records) /\
    n = Z.of_nat (List.length records) /\
    records = JObj <$> gathered self query tr /\
    n = Z.of_nat (List.length (filtered self query tr)) /\
    n <= max_urls self.
Proof.
  intros Hn Hf.
  exists (Z.of_nat (List.length (gathered self query tr))),
         (JObj <$> gathered self query tr).
  cbv zeta. rewrite (research_reaches_synthesis self query tr Hf).
  destruct (compile_findings_outcome self query (gathered self query tr)
              (snd (analysis_stage self query tr))) as [ts ->].
  assert (Hlen : Z.of_nat (List.length (gathered self query tr)) <= max_urls self).
  { rewrite gathered_length. unfold filtered.
    destruct (filter_urls_sublist_length self (candidates self query tr) Hn)
      as [_ Hle]. lia. }
  repeat split.
  - destruct (decoded_reply _ _ _ _ _); reflexivity.
  - destruct (decoded_reply _ _ _ _ _); reflexivity.
  - now rewrite length_fmap.
  - now rewrite gathered_length.
  - exact Hlen.
Qed.

(** The same three sources with a synthesis reply that decodes. *)
Lemma sources_analyzed_counts_witness :
  exists records : list json,
    fst (research Demo.complete_run "q" []) !! "sources_analyzed" = Some (JInt 3) /\
    fst (research Demo.complete_run "q" []) !! "webpage_analyses"
      = Some (JArr records) /\
    List.length records = 3%nat.
Proof.
  destruct (sources_analyzed_counts Demo.complete_run "q" [])
    as (n & records & Hn & Hrs & Hlen & _ & Hfil & _).
  - vm_compute. discriminate.
  - vm_compute. discriminate.
  - cbv zeta in *. exists records.
    assert (H3 : n = 3) by (rewrite Hfil; vm_compute; reflexivity).
    rewrite Hn, Hrs, H3. repeat split. lia.
Defined.

(** C8, as the code has it. A run whose search gives no candidate returns
    exactly the record of the one key error with the message
    "No search results found"; a run whose candidates are all removed by
    the filter returns exactly the record of the one key error with the
    message "No reliable sources found". *)
Theorem research_terminal_errors
    (self : WebResearchTool) (query : string) (tr : trace) :
  (candidates self query tr = [] ->
   fst (research self query tr) = {[ "error" := JStr "No search results found" ]}) /\
  (candidates self query tr <> [] ->
   filtered self query tr = [] ->
   fst (research self query tr) = {[ "error" := JStr "No reliable sources found" ]}).
Proof.
  rewrite research_run. split.
  - intros ->. reflexivity.
  - intros Hc Hf. destruct (candidates self query tr); [congruence |].
    rewrite Hf. reflexivity.
Qed.

(** An empty search, and a search whose only result is on an untrusted
    domain. *)
Lemma research_terminal_errors_witness :
  fst (research Demo.analyzer_tool
         "no such topic exists 12345" [])
    = {[ "error" := JStr "No search results found" ]} /\
  fst (research Demo.untrusted_search "q" [])
    = {[ "error" := JStr "No reliable sources found" ]}.
Proof.
  split.
  - apply (research_terminal_errors Demo.analyzer_tool).
    vm_compute. reflexivity.
  - apply (research_terminal_errors Demo.untrusted_search).
    + vm_compute. discriminate.
    + vm_compute. reflexivity.
Defined.

(** C8 fails as stated: with an empty search the record returned is not the
    one with the message in lower case. *)
Lemma lowercase_message_counterexample :
  candidates Demo.analyzer_tool "no such topic exists 12345" [] = [] /\
  fst (research Demo.analyzer_tool "no such topic exists 12345" [])
    <> {[ "error" := JStr "no search results found" ]}.
Proof.
  split.
  - vm_compute. reflexivity.
  - intros H. apply (f_equal (fun r : gmap string json => r !! "error")) in H.
    vm_compute in H. discriminate H.
Qed.

(** ** Further properties of the filter *)

Lemma append_assoc (a b c : string) : (a +:+ b) +:+ c = a +:+ (b +:+ c).
Proof.
  induction a as [|x a IH]; [reflexivity |].
  rewrite !append_cons. now rewrite IH.
Qed.

(** X1. Trust is closed under prefixing: whatever is put in front of a
    trusted domain (a subdomain and its dot, or any other characters), the
    result is trusted. *)
Theorem is_trusted_prefixed (domain p : string) :
  is_trusted domain = true -> is_trusted (p +:+ domain) = true.
Proof.
  rewrite !is_trusted_spec. intros (t & Ht & p' & ->).
  exists t. split; [exact Ht |]. exists (p +:+ p'). now rewrite append_assoc.
Qed.

Lemma is_trusted_prefixed_witness :
  is_trusted "arxiv.org" = true /\ is_trusted "export.arxiv.org" = true /\
  is_trusted "notarxiv.org" = true.
Proof.
  assert (H : is_trusted "arxiv.org" = true) by (vm_compute; reflexivity).
  split; [exact H |]. split.
  - exact (is_trusted_prefixed "arxiv.org" "export." H).
  - exact (is_trusted_prefixed "arxiv.org" "not" H).
Defined.

Lemma last_char_snoc (s : string) (c : ascii) :
  last_char (s +:+ String c EmptyString) = Some c.
Proof.
  induction s as [|x s IH]; [reflexivity |].
  rewrite append_cons. cbn [last_char]. rewrite IH.
  destruct (s +:+ String c EmptyString) eqn:Hs; [| reflexivity].
  destruct s; discriminate Hs.
Qed.

Lemma last_char_append (p t : string) :
  t <> EmptyString -> last_char (p +:+ t) = last_char t.
Proof.
  intros Ht. induction p as [|x p IH]; [reflexivity |].
  rewrite append_cons. cbn [last_char]. rewrite IH.
  destruct (p +:+ t) eqn:Hpt; [| reflexivity].
  destruct p; [| discriminate Hpt]. now destruct t.
Qed.

Lemma trusted_domains_ending (t : string) :
  t ∈ trusted_domains ->
  t <> EmptyString /\ exists c, last_char t = Some c /\ trusted_ending c = true.
Proof.
  unfold trusted_domains. intros Ht.
  repeat (apply elem_of_cons in Ht as [-> | Ht];
          [split; [discriminate | eexists; split; reflexivity] |]).
  now apply elem_of_nil in Ht.
Qed.

(** X2. A domain whose last character is none of m, g, v and u is never
    trusted: so a [netloc] that carries a port, or a host written with its
    final dot, does not pass, whatever the host is. *)
Theorem is_trusted_last_char (domain : string) (c : ascii) :
  trusted_ending c = false ->
  is_trusted (domain +:+ String c EmptyString) = false.
Proof.
  intros Hc. apply not_true_is_false. intros Htr.
  apply is_trusted_spec in Htr. destruct Htr as (t & Ht & p & Hp).
  destruct (trusted_domains_ending t Ht) as (Hne & c' & Hlast & Hc').
  assert (Heq : Some c = Some c').
  { rewrite <- (last_char_snoc domain c), Hp, (last_char_append p t Hne).
    exact Hlast. }
  inversion Heq; subst. congruence.
Qed.

(** The page of a trusted host, asked for with its port. *)
Lemma is_trusted_last_char_witness :
  Demo.netloc Cases.port_url = "www.nature.com:44" +:+ "3" /\
  is_trusted ("www.nature.com:44" +:+ "3") = false /\
  filter_urls Demo.analyzer_tool [Demo.candidate Cases.port_url] = [].
Proof.
  split; [vm_compute; reflexivity |]. split.
  - apply (is_trusted_last_char "www.nature.com:44" "3"). vm_compute. reflexivity.
  - vm_compute. reflexivity.
Defined.

Lemma filter_all_true {A : Type} (f : A -> bool) (l : list A) :
  Forall (fun x => f x = true) l -> List.filter f l = l.
Proof.
  induction 1 as [|x l Hx _ IH]; simpl; [reflexivity |].
  now rewrite Hx, IH.
Qed.

(** X3. For a limit that is not negative the filter is idempotent: applied
    to its own output it returns it unchanged. *)
Theorem filter_urls_idempotent (self : WebResearchTool) (urls : list url_data) :
  0 <= max_urls self ->
  filter_urls self (filter_urls self urls) = filter_urls self urls.
Proof.
  intros Hn. rewrite (filter_urls_nonneg self (filter_urls self urls) Hn).
  rewrite (filter_urls_nonneg self urls Hn).
  unfold trusted_inputs at 1. rewrite filter_all_true.
  - rewrite take_take. f_equal. lia.
  - apply Forall_forall. intros c Hc. apply subseteq_take in Hc.
    now apply trusted_inputs_elem in Hc.
Qed.

Lemma filter_urls_idempotent_witness :
  filter_urls Demo.pair_tool (filter_urls Demo.pair_tool Demo.lookalike_urls)
    = [Demo.candidate Demo.fakegov; Demo.candidate Demo.clone].
Proof.
  rewrite (filter_urls_idempotent Demo.pair_tool Demo.lookalike_urls).
  - vm_compute. reflexivity.
  - vm_compute. discriminate.
Defined.

(** ** Further properties of source discovery *)

Section DiscoveryFacts.

Context (self : WebResearchTool).

(** What one item gives: a candidate that repeats its three values, or the
    failure of an item that is not complete. *)
Lemma candidate_of_item_complete (item : gmap string string) :
  (item_complete (env self) item /\
   exists c, candidate_of_item self item = inr c /\
     item !! "link" = Some (url c) /\ item !! "title" = Some (title c) /\
     item !! "snippet" = Some (snippet c) /\
     source c = urlparse_netloc (env self) (url c) /\
     urlparse_error (env self) (url c) = None) \/
  (~ item_complete (env self) item /\ exists e, candidate_of_item self item = inl e).
Proof.
  unfold candidate_of_item, item_complete.
  destruct (item !! "link") as [l|]; [| right; split; [| eauto]].
  - destruct (item !! "title") as [t|]; [| right; split; [| eauto]].
    + destruct (item !! "snippet") as [s|]; [| right; split; [| eauto]].
      * destruct (urlparse_error (env self) l) as [e|] eqn:Hparse.
        -- right. split; [| eauto].
           intros ((l' & Hl & Hok) & _). inversion Hl; subst. congruence.
        -- left. split; [repeat split; eauto |].
           eexists. split; [reflexivity |]. simpl. auto.
      * intros (_ & _ & []). discriminate.
    + intros (_ & [] & _). discriminate.
  - intros ((l & Hl & _) & _). discriminate.
Qed.

Lemma collect_items_outcome (items : list (gmap string string))
    (acc : list url_data) :
  (Forall (item_complete (env self)) items /\
   exists cs, collect_items self items acc = inr (acc ++ cs) /\
     Forall2 (fun item c =>
                item !! "link" = Some (url c) /\ item !! "title" = Some (title c) /\
                item !! "snippet" = Some (snippet c) /\
                source c = urlparse_netloc (env self) (url c) /\
                urlparse_error (env self) (url c) = None) items cs) \/
  (Exists (fun item => ~ item_complete (env self) item) items /\
   exists e, collect_items self items acc = inl e).
Proof.
  revert acc. induction items as [|item items IH]; intros acc.
  - left. split; [constructor |]. exists []. split; [| constructor].
    simpl. now rewrite app_nil_r.
  - cbn [collect_items].
    destruct (candidate_of_item_complete item)
      as [(Hok & c & -> & Hc) | (Hbad & e & ->)].
    + destruct (IH (acc ++ [c])) as [(Hall & cs & -> & Hcs) | (Hex & e & ->)].
      * left. split; [now constructor |]. exists (c :: cs).
        split; [now rewrite <- app_assoc | now constructor].
      * right. split; [now apply Exists_cons_tl | eauto].
    + right. split; [now apply Exists_cons_hd | eauto].
Qed.

End DiscoveryFacts.

(** X4. When the search answers, [search_urls] is all or nothing: if every
    item has a link, a title and a snippet, and a link that [urlparse]
    accepts, it returns one candidate per item, in order, with those three
    values and the [netloc] of the link as source; if any one item lacks a
    key or has a link on which [urlparse] raises, it returns no candidate
    at all. *)
Theorem search_urls_all_or_nothing
    (self : WebResearchTool) (query : string) (tr : trace)
    (items : option (list (gmap string string))) :
  cse_items (env self) tr query (max_urls self) = inr items ->
  (Forall (item_complete (env self)) (default [] items) /\
   Forall2 (fun item c =>
              item !! "link" = Some (url c) /\ item !! "title" = Some (title c) /\
              item !! "snippet" = Some (snippet c) /\
              source c = urlparse_netloc (env self) (url c) /\
              urlparse_error (env self) (url c) = None)
     (default [] items) (fst (search_urls self query tr))) \/
  (Exists (fun item => ~ item_complete (env self) item) (default [] items) /\
   fst (search_urls self query tr) = []).
Proof.
  intros Hitems. unfold search_urls, bind, call. simpl. rewrite Hitems.
  destruct (collect_items_outcome self (default [] items) [])
    as [(Hall & cs & -> & Hcs) | (Hex & e & ->)]; simpl.
  - left. split; [exact Hall | exact Hcs].
  - right. split; [exact Hex | reflexivity].
Qed.

(** Two complete items give two candidates; a second item without a title,
    or with a link [urlparse] raises on, gives none, although the first
    item is complete. *)
Lemma search_urls_all_or_nothing_witness :
  fst (search_urls Cases.two_items_tool "q" [])
    = [Demo.candidate Demo.nature; Demo.candidate Demo.blog] /\
  fst (search_urls Cases.broken_item_tool "q" []) = [] /\
  fst (search_urls Cases.bad_link_tool "q" []) = [].
Proof.
  split; [| split].
  - destruct (search_urls_all_or_nothing Cases.two_items_tool "q" []
                (Some [Demo.item Demo.nature; Demo.item Demo.blog]))
      as [[_ _] | [_ Hnil]]; [reflexivity | |]; vm_compute; reflexivity.
  - destruct (search_urls_all_or_nothing Cases.broken_item_tool "q" []
                (Some [Demo.item Demo.nature; {[ "link" := Demo.campus ]}]))
      as [[Hall _] | [_ Hnil]]; [reflexivity | | exact Hnil].
    vm_compute. reflexivity.
  - destruct (search_urls_all_or_nothing Cases.bad_link_tool "q" []
                (Some [Demo.item Demo.nature; Demo.item Cases.bad_link]))
      as [[Hall _] | [_ Hnil]]; [reflexivity | | exact Hnil].
    vm_compute. reflexivity.
Defined.

(** So the urls that reach the filter inside [research] are urls that
    [urlparse] accepts. *)
Lemma search_urls_accepted (self : WebResearchTool) (query : string) (tr : trace) :
  Forall (fun c => urlparse_error (env self) (url c) = None)
    (fst (search_urls self query tr)).
Proof.
  unfold search_urls, bind, call. simpl.
  destruct (cse_items (env self) tr query (max_urls self)) as [e|items];
    simpl; [constructor |].
  destruct (collect_items_outcome self (default [] items) [])
    as [(_ & cs & -> & Hcs) | (_ & e & ->)]; simpl; [| constructor].
  induction Hcs as [|item c items' cs' Hc _ IH]; constructor; [tauto | exact IH].
Qed.

(** ** Further properties of content extraction *)

Lemma lstrip_all_space (s : string) : all_space (Py.lstrip s) = all_space s.
Proof.
  induction s as [|c s IH]; [reflexivity |].
  cbn [Py.lstrip all_space]. destruct (Py.isspace c) eqn:Hc.
  - exact IH.
  - cbn [all_space]. now rewrite Hc.
Qed.

Lemma rstrip_empty (s : string) :
  Py.rstrip s = EmptyString <-> all_space s = true.
Proof.
  induction s as [|c s IH]; [easy |].
  cbn [Py.rstrip all_space]. rewrite andb_true_iff, <- IH.
  destruct (Py.rstrip s); destruct (Py.isspace c); split;
    try easy; intros []; easy.
Qed.

Lemma strip_empty (s : string) :
  Py.strip s = EmptyString <-> all_space s = true.
Proof. unfold Py.strip. now rewrite rstrip_empty, lstrip_all_space. Qed.

Lemma truthy_false (s : string) : Py.truthy s = false <-> s = EmptyString.
Proof. destruct s; easy. Qed.

(** The loop keeps, in order, the stripped texts that are not empty. *)
Lemma content_loop_acc (elements content : list string) :
  content_loop elements content
    = content ++ List.filter Py.truthy (Py.strip <$> elements).
Proof.
  revert content. induction elements as [|e es IH]; intros content.
  - simpl. now rewrite app_nil_r.
  - cbn [content_loop fmap list_fmap List.filter].
    destruct (Py.truthy (Py.strip e)); rewrite IH.
    + now rewrite <- app_assoc.
    + reflexivity.
Qed.

Lemma join_empty (sep : string) (parts : list string) :
  Forall (fun p => Py.truthy p = true) parts ->
  Py.join sep parts = EmptyString -> parts = [].
Proof.
  unfold Py.join. intros Hall Hj. destruct Hall as [|p parts Hp Hall]; [reflexivity |].
  destruct p; [discriminate Hp |]. destruct parts; discriminate Hj.
Qed.

Lemma filter_truthy_nil (texts : list string) :
  List.filter Py.truthy (Py.strip <$> texts) = [] <->
  Forall (fun e => all_space e = true) texts.
Proof.
  induction texts as [|e es IH]; [split; constructor |].
  cbn [fmap list_fmap List.filter].
  destruct (Py.truthy (Py.strip e)) eqn:He.
  - split; [discriminate |]. intros Hall. inversion Hall as [|? ? Hsp _]; subst.
    apply strip_empty in Hsp. rewrite Hsp in He. discriminate He.
  - rewrite IH. apply truthy_false, strip_empty in He. split.
    + intros Hes. now constructor.
    + intros Hall. now inversion Hall.
Qed.

(** X5. When the page is fetched and its elements are ASCII text, the
    extracted text is the empty string exactly when every element found is
    white space only (or none was found): such a page is then treated like
    a failed extraction. *)
Theorem extract_empty_iff_blank
    (self : WebResearchTool) (target : string) (tr : trace)
    (elements : list string) :
  page_elements (env self) tr target = inr elements ->
  Forall (fun e => is_ascii e = true) elements ->
  (fst (extract_text_from_url self target tr) = Some EmptyString <->
   Forall (fun e => all_space e = true) elements).
Proof.
  intros Hpage _.
  unfold extract_text_from_url, bind, call, logger_error, ret. simpl.
  rewrite Hpage. simpl. rewrite content_loop_acc. simpl. split.
  - intros Hj. apply filter_truthy_nil. inversion Hj as [Hj'].
    apply (join_empty nl); [| exact Hj'].
    apply Forall_forall. intros p Hp.
    apply list_elem_of_In, filter_In in Hp. tauto.
  - intros Hall. apply filter_truthy_nil in Hall. now rewrite Hall.
Qed.

(** A page of blank paragraphs gives the empty string; the page of
    [Demo.nature], with one blank element of three, does not. *)
Lemma extract_empty_iff_blank_witness :
  fst (extract_text_from_url Cases.blank_tool "https://blank.edu/" [])
    = Some EmptyString /\
  fst (extract_text_from_url Demo.analyzer_tool Demo.nature [])
    <> Some EmptyString.
Proof.
  split.
  - apply (extract_empty_iff_blank Cases.blank_tool "https://blank.edu/" []
             Cases.blank_elements).
    + reflexivity.
    + repeat constructor.
    + repeat constructor.
  - intros Hempty.
    apply (extract_empty_iff_blank Demo.analyzer_tool Demo.nature []
             ["  Hello  "; "   "; "World"]%string) in Hempty.
    + inversion Hempty as [|? ? Hhello _]. vm_compute in Hhello.
      discriminate Hhello.
    + reflexivity.
    + repeat constructor.
Defined.

(** ** Further properties of the analyzer *)

Lemma len_append (a b : string) : Py.len (a +:+ b) = (Py.len a + Py.len b)%nat.
Proof.
  induction a as [|c a IH]; [reflexivity |].
  rewrite append_cons. cbn [Py.len]. rewrite IH.
  now destruct (Py.is_continuation c).
Qed.

Lemma take_chars_len (n : nat) (s : string) :
  Py.len (Py.take_chars n s) = Nat.min n (Py.len s).
Proof.
  revert n. induction s as [|c s IH]; intros n; [now destruct n |].
  cbn [Py.take_chars Py.len]. destruct (Py.is_continuation c) eqn:Hc.
  - cbn [Py.len]. rewrite Hc. apply IH.
  - destruct n as [|m]; [reflexivity |].
    cbn [Py.len]. rewrite Hc, IH. reflexivity.
Qed.

(** What [take_chars] leaves behind starts a new character. *)
Lemma take_chars_split (n : nat) (s : string) :
  exists dropped,
    s = Py.take_chars n s +:+ dropped /\
    ((n < Py.len s)%nat ->
     match dropped with
     | String c _ => Py.is_continuation c = false
     | EmptyString => False
     end).
Proof.
  revert n. induction s as [|c s IH]; intros n.
  - exists EmptyString. split; [reflexivity |]. simpl. lia.
  - cbn [Py.take_chars Py.len]. destruct (Py.is_continuation c) eqn:Hc.
    + destruct (IH n) as (dropped & Hs & Hd). exists dropped.
      rewrite append_cons, <- Hs. auto.
    + destruct n as [|m].
      * exists (String c s). split; [reflexivity |]. intros _. exact Hc.
      * destruct (IH m) as (dropped & Hs & Hd). exists dropped.
        rewrite append_cons, <- Hs. split; [reflexivity |].
        intros Hlt. apply Hd. lia.
Qed.

(** X6. The text put in the prompt is never longer than 12003 characters:
    a text of at most 12000 characters goes unchanged, a longer one is cut
    to its first 12000 characters, whole, followed by three dots. *)
Theorem truncate_content_bound (content : string) :
  Z.of_nat (Py.len (truncate_content content)) <= max_content_length + 3 /\
  (Z.of_nat (Py.len content) <= max_content_length ->
   truncate_content content = content) /\
  (max_content_length < Z.of_nat (Py.len content) ->
   exists kept dropped,
     content = kept +:+ dropped /\
     Z.of_nat (Py.len kept) = max_content_length /\
     match dropped with
     | String c _ => Py.is_continuation c = false
     | EmptyString => False
     end /\
     truncate_content content = kept +:+ "...").
Proof.
  unfold truncate_content, Py.str_slice_to.
  set (n := Z.to_nat max_content_length).
  assert (Hn : Z.of_nat n = max_content_length)
    by (subst n; unfold max_content_length; lia).
  destruct (max_content_length <? Z.of_nat (Py.len content)) eqn:Hlt.
  - apply Z.ltb_lt in Hlt.
    pose proof (take_chars_len n content) as Hlen.
    split; [| split].
    + rewrite len_append, Hlen.
      change (Py.len "...") with 3%nat. lia.
    + lia.
    + intros _. destruct (take_chars_split n content) as (dropped & Hs & Hd).
      exists (Py.take_chars n content), dropped.
      split; [exact Hs |]. split; [lia |]. split; [apply Hd; lia | reflexivity].
  - apply Z.ltb_ge in Hlt. split; [lia |]. split; [reflexivity | lia].
Qed.

(** A text of 6001 two-byte characters, 12002 bytes long, is within the
    limit and goes unchanged. *)
Lemma truncate_content_bound_witness :
  Z.of_nat (Py.len Cases.accents) = 6001 /\
  Z.of_nat (String.length Cases.accents) = 12002 /\
  truncate_content Cases.accents = Cases.accents.
Proof.
  split; [vm_compute; reflexivity |]. split; [vm_compute; reflexivity |].
  destruct (truncate_content_bound Cases.accents) as (_ & Hsame & _).
  apply Hsame. vm_compute. discriminate.
Defined.

(** X7. A reply that decodes to JSON that is not an object (a list, a
    string, a number, true, false or null) is not taken as an analysis: the
    record is the url with the error
    "'<type>' object has no attribute 'update'". *)
Theorem analyze_webpage_not_an_object
    (self : WebResearchTool) (u : url_data) (query content : string)
    (tr tr1 : trace) (reply : json) :
  extract_text_from_url self (url u) tr = (Some content, tr1) ->
  content <> ""%string ->
  analysis_outcome self u query content tr1 = inr reply ->
  type_name reply <> "dict"%string ->
  fst (analyze_webpage self u query tr)
    = error_record u
        ("'" +:+ type_name reply +:+ "' object has no attribute 'update'").
Proof.
  intros Hext Hne Hout Hty.
  rewrite (analyze_webpage_extracted self u query content tr tr1 Hext Hne), Hout.
  destruct reply; try reflexivity. now contradiction Hty.
Qed.

Lemma analyze_webpage_not_an_object_witness :
  fst (analyze_webpage Cases.list_reply_tool (Demo.candidate Demo.campus) "q" [])
    = error_record (Demo.candidate Demo.campus)
        "'list' object has no attribute 'update'".
Proof.
  apply (analyze_webpage_not_an_object Cases.list_reply_tool
           (Demo.candidate Demo.campus) "q" "Paper" [] [EvFetch Demo.campus]
           (JArr [])).
  - vm_compute. reflexivity.
  - discriminate.
  - vm_compute. reflexivity.
  - vm_compute. discriminate.
Defined.

(** ** What a run asks of the outside *)

Section Effort.

Context (self : WebResearchTool).

Lemma counts_snoc (tr : trace) (e : event) :
  searches (tr ++ [e]) = (searches tr + if is_search e then 1 else 0)%nat /\
  fetches (tr ++ [e]) = (fetches tr + if is_fetch e then 1 else 0)%nat /\
  sleeps (tr ++ [e]) = (sleeps tr + if is_sleep e then 1 else 0)%nat /\
  model_calls (tr ++ [e]) = (model_calls tr + if is_create e then 1 else 0)%nat.
Proof.
  unfold searches, fetches, sleeps, model_calls.
  rewrite !List.filter_app, !length_app. simpl.
  destruct e; simpl; lia.
Qed.

Lemma counts_trans (t0 t1 t2 : trace) (a b c d e a' b' c' d' e' : nat) :
  counts_add t0 t1 a b c d e -> counts_add t1 t2 a' b' c' d' e' ->
  counts_add t0 t2 (a + a') (b + b') (c + c') (d + d') (e + e').
Proof. unfold counts_add. lia. Qed.

Lemma counts_event (tr : trace) (e : event) :
  counts_add tr (tr ++ [e])
    (if is_search e then 1 else 0) (if is_fetch e then 1 else 0)
    (if is_sleep e then 1 else 0)
    (if is_create e then 1 else 0) (if is_create e then 1 else 0).
Proof. unfold counts_add. pose proof (counts_snoc tr e). lia. Qed.

Lemma search_urls_counts (query : string) (tr : trace) :
  counts_add tr (snd (search_urls self query tr)) 1 0 0 0 0.
Proof.
  unfold search_urls, bind, call, logger_error, ret. simpl.
  pose proof (counts_event tr (EvSearch query (max_urls self))) as H1.
  destruct (cse_items _ _ _ _) as [e|items]; simpl.
  - pose proof (counts_event (tr ++ [EvSearch query (max_urls self)])
                  (EvLog "ERROR" ("Error in search: " +:+ e))) as H2.
    exact (counts_trans _ _ _ _ _ _ _ _ _ _ _ _ _ H1 H2).
  - destruct (collect_items self (default [] items) []) as [e|rs]; simpl.
    + pose proof (counts_event (tr ++ [EvSearch query (max_urls self)])
                    (EvLog "ERROR" ("Error in search: " +:+ e))) as H2.
      exact (counts_trans _ _ _ _ _ _ _ _ _ _ _ _ _ H1 H2).
    + exact H1.
Qed.

Lemma extract_counts (target : string) (tr : trace) :
  counts_add tr (snd (extract_text_from_url self target tr)) 0 1 0 0 0.
Proof.
  unfold extract_text_from_url, bind, call, logger_error, ret. simpl.
  pose proof (counts_event tr (EvFetch target)) as H1.
  destruct (page_elements _ _ _) as [e|els]; simpl; [| exact H1].
  exact (counts_trans _ _ _ _ _ _ _ _ _ _ _ _ _ H1 (counts_event _ (EvLog _ _))).
Qed.

Lemma analysis_failed_counts (u : url_data) (e : exn) (tr : trace) :
  counts_add tr (snd (analysis_failed u e tr)) 0 0 0 0 0.
Proof. unfold analysis_failed, bind, logger_error, call, ret. apply (counts_event tr (EvLog _ _)). Qed.

(** One fetch; one model call when there is text, none otherwise. *)
Lemma analyze_webpage_counts (u : url_data) (query : string) (tr : trace) :
  let called :=
    match fst (extract_text_from_url self (url u) tr) with
    | Some (String _ _) => 1%nat
    | _ => 0%nat
    end in
  counts_add tr (snd (analyze_webpage self u query tr)) 0 1 0 called called.
Proof.
  pose proof (extract_counts (url u) tr) as H1.
  unfold analyze_webpage, bind.
  destruct (extract_text_from_url self (url u) tr) as [[[|c content]|] tr1];
    simpl in *; try exact H1.
  unfold call.
  pose proof (counts_event tr1
    (EvCreate model_name 1000 analysis_system
       (analysis_prompt u query (truncate_content (String c content))))) as H2.
  simpl in H2. pose proof (counts_trans _ _ _ _ _ _ _ _ _ _ _ _ _ H1 H2) as H12.
  destruct (messages_create _ _ _ _ _ _) as [e|text]; simpl.
  - exact (counts_trans _ _ _ _ _ _ _ _ _ _ _ _ _ H12 (analysis_failed_counts u e _)).
  - destruct (json_loads (env self) text) as [e|analysis]; simpl.
    + exact (counts_trans _ _ _ _ _ _ _ _ _ _ _ _ _ H12 (analysis_failed_counts u e _)).
    + destruct (update_with analysis u) as [e|merged]; simpl.
      * exact (counts_trans _ _ _ _ _ _ _ _ _ _ _ _ _ H12 (analysis_failed_counts u e _)).
      * exact H12.
Qed.

Lemma analyze_loop_counts (us : list url_data) (query : string)
    (acc : list (gmap string json)) (tr : trace) :
  counts_add tr (snd (analyze_loop self us query acc tr))
    0 (List.length us) (List.length us) 0 (List.length us).
Proof.
  revert acc tr. induction us as [|u us IH]; intros acc tr.
  - simpl. unfold counts_add. lia.
  - cbn [analyze_loop]. unfold bind at 1. unfold logger_info at 1, call at 1.
    unfold bind at 1.
    pose proof (counts_event tr (EvLog "INFO" ("Analyzing " +:+ url u))) as H0.
    pose proof (analyze_webpage_counts u query
                  (tr ++ [EvLog "INFO" ("Analyzing " +:+ url u)])) as H1.
    destruct (analyze_webpage self u query _) as [r tr1].
    unfold bind at 1, time_sleep, call at 1.
    pose proof (counts_event tr1 (EvSleep 1)) as H2.
    pose proof (IH (acc ++ [r]) (tr1 ++ [EvSleep 1])) as H3.
    simpl in H0, H1, H2. cbn [List.length].
    destruct (extract_text_from_url self (url u) _) as [[[|? ?]|] ?];
      simpl in H1; unfold counts_add in *; lia.
Qed.

Lemma synthesis_failed_counts (query : string)
    (analyses : list (gmap string json)) (e : exn) (tr : trace) :
  counts_add tr (snd (synthesis_failed self query analyses e tr)) 0 0 0 0 0.
Proof.
  unfold synthesis_failed, bind, call, logger_error, ret. simpl.
  exact (counts_trans _ _ _ _ _ _ _ _ _ _ _ _ _
           (counts_event tr (EvLog _ _)) (counts_event _ EvNow)).
Qed.

Lemma compile_findings_counts (query : string)
    (analyses : list (gmap string json)) (tr : trace) :
  counts_add tr (snd (compile_findings self query analyses tr)) 0 0 0 1 1.
Proof.
  unfold compile_findings, bind, call. simpl.
  pose proof (counts_event tr
    (EvCreate model_name 1500 synthesis_system
       (synthesis_prompt query
          (json_dumps (env self) (webpage_analyses_json analyses))))) as H1.
  simpl in H1.
  destruct (messages_create _ _ _ _ _ _) as [e|text]; simpl.
  - exact (counts_trans _ _ _ _ _ _ _ _ _ _ _ _ _ H1
             (synthesis_failed_counts query analyses e _)).
  - destruct (json_loads (env self) text) as [e|synthesis]; simpl.
    + exact (counts_trans _ _ _ _ _ _ _ _ _ _ _ _ _ H1
               (synthesis_failed_counts query analyses e _)).
    + exact (counts_trans _ _ _ _ _ _ _ _ _ _ _ _ _ H1 (counts_event _ EvNow)).
Qed.

Lemma discovery_counts (query : string) (tr : trace) :
  counts_add tr (snd (discovery self query tr)) 1 0 0 0 0.
Proof.
  unfold discovery, bind, logger_info, call.
  exact (counts_trans _ _ _ _ _ _ _ _ _ _ _ _ _
           (counts_event tr (EvLog _ _)) (search_urls_counts query _)).
Qed.

Lemma research_counts (query : string) (tr : trace) :
  counts_add tr (snd (research self query tr)) 1
    (List.length (filtered self query tr)) (List.length (filtered self query tr))
    (if filtered self query tr is [] then 0 else 1)
    (if filtered self query tr is [] then 0
     else List.length (filtered self query tr) + 1).
Proof.
  pose proof (discovery_counts query tr) as Hd.
  rewrite research_run.
  destruct (candidates self query tr) as [|c cs] eqn:Hc.
  - assert (Hf : filtered self query tr = []).
    { unfold filtered. rewrite Hc. apply filter_urls_nil. }
    rewrite Hf. exact Hd.
  - destruct (filtered self query tr) as [|f fs] eqn:Hf; [exact Hd |].
    pose proof (analyze_loop_counts (f :: fs) query [] (snd (discovery self query tr)))
      as Hl.
    pose proof (compile_findings_counts query (gathered self query tr)
                  (snd (analysis_stage self query tr))) as Hs.
    unfold analysis_stage in *. rewrite Hf in *.
    unfold counts_add in *. cbn [List.length] in *. lia.
Qed.

End Effort.

(** X8. Every analysis of a candidate makes exactly one page fetch, no
    search and no pause, and exactly one model call when text was extracted
    and is not empty, none otherwise: a reply that fails or does not decode
    is not asked for again. *)
Theorem analyze_webpage_effort
    (self : WebResearchTool) (u : url_data) (query : string) (tr : trace) :
  fetches (snd (analyze_webpage self u query tr)) = S (fetches tr) /\
  searches (snd (analyze_webpage self u query tr)) = searches tr /\
  sleeps (snd (analyze_webpage self u query tr)) = sleeps tr /\
  model_calls (snd (analyze_webpage self u query tr))
    = (model_calls tr +
       match fst (extract_text_from_url self (url u) tr) with
       | Some (String _ _) => 1
       | _ => 0
       end)%nat.
Proof.
  pose proof (analyze_webpage_counts self u query tr) as H.
  unfold counts_add in H. cbv zeta in H. lia.
Qed.

(** X9. A run makes exactly one search request; it fetches one page and
    pauses once for each filtered candidate, the last included; it calls
    the model at most once per filtered candidate and once more for the
    synthesis, and not at all when no candidate is left to analyse. *)
Theorem research_effort
    (self : WebResearchTool) (query : string) (tr : trace) :
  searches (snd (research self query tr)) = S (searches tr) /\
  fetches (snd (research self query tr))
    = (fetches tr + List.length (filtered self query tr))%nat /\
  sleeps (snd (research self query tr))
    = (sleeps tr + List.length (filtered self query tr))%nat /\
  (model_calls (snd (research self query tr))
     <= model_calls tr + List.length (filtered self query tr) + 1)%nat /\
  (filtered self query tr = [] ->
   model_calls (snd (research self query tr)) = model_calls tr) /\
  (filtered self query tr <> [] ->
   (model_calls tr + 1 <= model_calls (snd (research self query tr)))%nat).
Proof.
  pose proof (research_counts self query tr) as H. unfold counts_add in H.
  destruct (filtered self query tr) as [|f fs]; cbn [List.length] in *.
  - repeat split; try lia. intros Hne. now contradiction Hne.
  - repeat split; try lia. discriminate.
Qed.

(** Three filtered candidates, one without text: one search, three
    fetches, three pauses, two analyses and the synthesis. *)
Lemma research_effort_witness :
  searches (snd (research Demo.complete_run "q" [])) = 1%nat /\
  fetches (snd (research Demo.complete_run "q" [])) = 3%nat /\
  sleeps (snd (research Demo.complete_run "q" [])) = 3%nat /\
  (1 <= model_calls (snd (research Demo.complete_run "q" [])) <= 4)%nat /\
  model_calls (snd (research Demo.untrusted_search "q" [])) = 0%nat.
Proof.
  destruct (research_effort Demo.complete_run "q" [])
    as (Hs & Hf & Hp & Hmax & _ & Hmin).
  destruct (research_effort Demo.untrusted_search "q" [])
    as (_ & _ & _ & _ & Hnone & _).
  assert (Hlen : List.length (filtered Demo.complete_run "q" []) = 3%nat)
    by (vm_compute; reflexivity).
  rewrite Hlen in *.
  split; [exact Hs |]. split; [exact Hf |]. split; [exact Hp |]. split.
  - split; [| exact Hmax]. apply Hmin. vm_compute. discriminate.
  - apply Hnone. vm_compute. reflexivity.
Defined.

(** ** The shapes of the result of a run *)

Lemma run_record_dom (query ts : string) (analyses : list (gmap string json)) :
  dom (run_record query ts analyses)
    = ({[ "query"; "timestamp"; "sources_analyzed"; "webpage_analyses" ]}
         : gset string).
Proof. unfold run_record. rewrite !dom_insert_L, dom_empty_L. set_solver. Qed.

(** The four ways a run ends. *)
Lemma research_result_cases (self : WebResearchTool) (query : string) (tr : trace) :
  (candidates self query tr = [] /\
   fst (research self query tr) = {[ "error" := JStr "No search results found" ]}) \/
  (candidates self query tr <> [] /\ filtered self query tr = [] /\
   fst (research self query tr) = {[ "error" := JStr "No reliable sources found" ]}) \/
  (filtered self query tr <> [] /\
   exists ts msg, synthesis_outcome self query tr = inl msg /\
     fst (research self query tr)
       = <["error" := JStr msg]> (run_record query ts (gathered self query tr))) \/
  (filtered self query tr <> [] /\
   exists ts v, synthesis_outcome self query tr = inr v /\
     fst (research self query tr)
       = <["synthesis" := v]> (run_record query ts (gathered self query tr))).
Proof.
  destruct (candidates self query tr) as [|c cs] eqn:Hc.
  - left. split; [reflexivity |]. rewrite research_run, Hc. reflexivity.
  - right. destruct (filtered self query tr) as [|f fs] eqn:Hf.
    + left. split; [discriminate |]. split; [reflexivity |].
      rewrite research_run, Hc, Hf. reflexivity.
    + right.
      assert (Hne : filtered self query tr <> []) by (rewrite Hf; discriminate).
      rewrite <- Hf. rewrite (research_reaches_synthesis self query tr Hne).
      destruct (compile_findings_outcome self query (gathered self query tr)
                  (snd (analysis_stage self query tr))) as [ts Hts].
      fold (synthesis_outcome self query tr) in Hts.
      destruct (synthesis_outcome self query tr) as [msg|v].
      * left. split; [exact Hne |]. exists ts, msg. split; [reflexivity | exact Hts].
      * right. split; [exact Hne |]. exists ts, v. split; [reflexivity | exact Hts].
Qed.

(** X10. When the synthesis reply decodes, whatever JSON value it decodes
    to is returned under synthesis, unchecked, beside the query, the
    timestamp, sources_analyzed and the gathered webpage_analyses; the
    result has these five keys and no error key. *)
Theorem synthesis_success_shape
    (self : WebResearchTool) (query : string) (tr : trace) (v : json) :
  filtered self query tr <> [] ->
  synthesis_outcome self query tr = inr v ->
  exists ts : string,
    fst (research self query tr)
      = <["synthesis" := v]> (run_record query ts (gathered self query tr)) /\
    fst (research self query tr) !! "synthesis" = Some v /\
    fst (research self query tr) !! "error" = None /\
    fst (research self query tr) !! "webpage_analyses"
      = Some (JArr (JObj <$> gathered self query tr)) /\
    dom (fst (research self query tr))
      = ({[ "query"; "timestamp"; "sources_analyzed"; "webpage_analyses";
            "synthesis" ]} : gset string).
Proof.
  intros Hne Hv.
  destruct (research_result_cases self query tr)
    as [[Hc _] | [(_ & Hf & _) | [(_ & ts & msg & Hmsg & _) | (_ & ts & v' & Hv' & Hr)]]].
  - now apply filtered_candidates in Hne.
  - contradiction.
  - congruence.
  - assert (v' = v) by congruence. subst v'. exists ts. rewrite Hr.
    split; [reflexivity |]. split; [reflexivity |]. split; [reflexivity |].
    split; [reflexivity |].
    rewrite dom_insert_L, run_record_dom. set_solver.
Qed.

Lemma synthesis_success_shape_witness :
  fst (research Demo.complete_run "q" []) !! "synthesis"
    = Some (JObj {[ "answer" := JStr "a" ]}) /\
  fst (research Demo.complete_run "q" []) !! "error" = None.
Proof.
  destruct (synthesis_success_shape Demo.complete_run "q" []
              (JObj {[ "answer" := JStr "a" ]}))
    as (ts & _ & Hsyn & Herr & _).
  - vm_compute. discriminate.
  - vm_compute. reflexivity.
  - split; [exact Hsyn | exact Herr].
Defined.

(** X11. Whatever happens, the result of [research] has one of three key
    sets: error alone; query, timestamp, sources_analyzed, webpage_analyses
    and error; or those four and synthesis.  So it carries exactly one of
    error and synthesis, and an error is always a string. *)
Theorem research_result_shape
    (self : WebResearchTool) (query : string) (tr : trace) :
  (dom (fst (research self query tr)) = ({[ "error" ]} : gset string) \/
   dom (fst (research self query tr))
     = ({[ "query"; "timestamp"; "sources_analyzed"; "webpage_analyses";
           "error" ]} : gset string) \/
   dom (fst (research self query tr))
     = ({[ "query"; "timestamp"; "sources_analyzed"; "webpage_analyses";
           "synthesis" ]} : gset string)) /\
  (is_Some (fst (research self query tr) !! "error") <->
   fst (research self query tr) !! "synthesis" = None) /\
  (forall v, fst (research self query tr) !! "error" = Some v ->
     exists msg, v = JStr msg).
Proof.
  destruct (research_result_cases self query tr)
    as [[_ ->] | [(_ & _ & ->) | [(_ & ts & msg & _ & ->) | (_ & ts & v & _ & ->)]]].
  - split; [left; apply dom_singleton_L |]. split.
    + split; [reflexivity | intros _; eexists; reflexivity].
    + intros v Hv. inversion Hv. eauto.
  - split; [left; apply dom_singleton_L |]. split.
    + split; [reflexivity | intros _; eexists; reflexivity].
    + intros v Hv. inversion Hv. eauto.
  - split.
    + right. left. rewrite dom_insert_L, run_record_dom. set_solver.
    + split.
      * split; [reflexivity | intros _; eexists; reflexivity].
      * intros v Hv. rewrite lookup_insert_eq in Hv. inversion Hv. eauto.
  - split.
    + right. right. rewrite dom_insert_L, run_record_dom. set_solver.
    + split.
      * split; [intros [x Hx]; discriminate Hx | discriminate].
      * intros w Hw. discriminate Hw.
Qed.

(** X12. With the limit set to zero nothing is ever analysed: the run ends
    with one of the two one-key error records, "No reliable sources found"
    whenever the search gave candidates, however trusted they are. *)
Theorem research_zero_limit
    (self : WebResearchTool) (query : string) (tr : trace) :
  max_urls self = 0 ->
  filtered self query tr = [] /\
  (candidates self query tr <> [] ->
   fst (research self query tr) = {[ "error" := JStr "No reliable sources found" ]}) /\
  fetches (snd (research self query tr)) = fetches tr.
Proof.
  intros H0.
  assert (Hf : filtered self query tr = []).
  { unfold filtered. rewrite filter_urls_nonneg by lia. now rewrite H0. }
  split; [exact Hf |]. split.
  - intros Hc.
    destruct (research_result_cases self query tr)
      as [[Hc' _] | [(_ & _ & Hr) | [(Hne & _) | (Hne & _)]]];
      [contradiction | exact Hr | contradiction | contradiction].
  - pose proof (research_counts self query tr) as H. unfold counts_add in H.
    rewrite Hf in H. simpl in H. lia.
Qed.

Lemma research_zero_limit_witness :
  candidates Cases.zero_tool "q" []
    = [Demo.candidate Demo.nature; Demo.candidate Demo.campus] /\
  fst (research Cases.zero_tool "q" [])
    = {[ "error" := JStr "No reliable sources found" ]}.
Proof.
  destruct (research_zero_limit Cases.zero_tool "q" []) as (_ & Hr & _).
  - reflexivity.
  - split; [vm_compute; reflexivity |]. apply Hr. vm_compute. discriminate.
Defined.

(** ** Properties of [main] *)

Lemma main_researcher_limit (h : Host) (config : json) (researcher : WebResearchTool) :
  main_researcher h config = Some researcher -> max_urls researcher = 5.
Proof.
  unfold main_researcher. intros H.
  destruct (subscript config "anthropic_api_key"); [discriminate |].
  destruct (subscript config "google_api_key"); [discriminate |].
  destruct (subscript config "google_cse_id"); [discriminate |].
  inversion H. reflexivity.
Qed.


Lemma filtered_length_limit (self : WebResearchTool) (query : string) (tr : trace) :
  0 <= max_urls self ->
  Z.of_nat (List.length (filtered self query tr)) <= max_urls self.
Proof.
  intros Hn. unfold filtered.
  destruct (filter_urls_sublist_length self (candidates self query tr) Hn)
    as [_ Hlen]. lia.
Qed.



(** X14. Whatever the configuration, the input and the services, one call
    of [main] makes at most one search request, fetches at most five pages,
    pauses at most five times and calls the model at most six times. *)
Theorem main_budget (h : Host) (tr : trace) :
  (searches (snd (main h tr)) <= searches tr + 1)%nat /\
  (fetches (snd (main h tr)) <= fetches tr + 5)%nat /\
  (sleeps (snd (main h tr)) <= sleeps tr + 5)%nat /\
  (model_calls (snd (main h tr)) <= model_calls tr + 6)%nat.
Proof.
  unfold main.
  destruct (load_config h) as [|e|config]; cbn [snd]; try lia.
  destruct (subscript config "anthropic_api_key") as [|a]; cbn [snd]; try lia.
  destruct (subscript config "google_api_key") as [|g]; cbn [snd]; try lia.
  destruct (subscript config "google_cse_id") as [|c]; cbn [snd]; try lia.
  destruct (stdin_line h) as [e|query]; cbn [snd]; try lia.
  set (researcher := {| env := connect h a g c; max_urls := 5 |}).
  pose proof (research_counts researcher query tr) as Hrun.
  pose proof (filtered_length_limit researcher query tr) as Hlim.
  cbn [max_urls researcher] in Hlim. specialize (Hlim ltac:(lia)).
  destruct (research researcher query tr) as [results tr1]. cbn [snd] in Hrun.
  pose proof (counts_snoc tr1 EvNow) as Hnow. simpl in Hnow.
  assert (Hgoal : (searches (tr1 ++ [EvNow]) <= searches tr + 1)%nat /\
                  (fetches (tr1 ++ [EvNow]) <= fetches tr + 5)%nat /\
                  (sleeps (tr1 ++ [EvNow]) <= sleeps tr + 5)%nat /\
                  (model_calls (tr1 ++ [EvNow]) <= model_calls tr + 6)%nat).
  { unfold counts_add in Hrun.
    destruct (filtered researcher query tr); cbn [List.length] in *; lia. }
  destruct (write_file h _ _); exact Hgoal.
Qed.

(** X15. A configuration that is not an object, or lacks one of the three
    keys, is not handled: [main] raises (a [KeyError] naming a missing key,
    a [TypeError] for a value that is not an object) before it asks the
    question, with nothing printed, searched or written. *)
Theorem main_bad_config (h : Host) (tr : trace) (config : json) :
  load_config h = ConfigLoaded config ->
  main_researcher h config = None ->
  exists r : raised,
    main h tr = (Uncaught r, [], tr) /\
    (forall d, config = JObj d ->
       exists key, r = KeyError key /\ d !! key = None /\
         key ∈ ["anthropic_api_key"; "google_api_key"; "google_cse_id"]%string) /\
    ((forall d, config <> JObj d) -> r = TypeError).
Proof.
  intros Hload Hnone. unfold main, main_researcher in *. rewrite Hload.
  assert (Hsub : forall key r, subscript config key = inl r ->
            (forall d, config = JObj d -> r = KeyError key /\ d !! key = None) /\
            ((forall d, config <> JObj d) -> r = TypeError)).
  { intros key r Hr. unfold subscript in Hr. destruct config; inversion Hr; subst;
      try (split; [intros d Hd; discriminate Hd | reflexivity]).
    destruct (m !! key) eqn:Hk; inversion Hr; subst. split.
    - intros d Hd. inversion Hd; subst. auto.
    - intros Hno. now contradiction (Hno m). }
  destruct (subscript config "anthropic_api_key") as [r|a] eqn:H1.
  { exists r. split; [reflexivity |]. destruct (Hsub _ _ H1) as [Hk Ht].
    split; [| exact Ht]. intros d Hd. destruct (Hk d Hd) as [-> Hmiss].
    eexists. split; [reflexivity |]. split; [exact Hmiss |].
    apply list_elem_of_In. simpl. auto. }
  destruct (subscript config "google_api_key") as [r|g] eqn:H2.
  { exists r. split; [reflexivity |]. destruct (Hsub _ _ H2) as [Hk Ht].
    split; [| exact Ht]. intros d Hd. destruct (Hk d Hd) as [-> Hmiss].
    eexists. split; [reflexivity |]. split; [exact Hmiss |].
    apply list_elem_of_In. simpl. auto. }
  destruct (subscript config "google_cse_id") as [r|c] eqn:H3.
  { exists r. split; [reflexivity |]. destruct (Hsub _ _ H3) as [Hk Ht].
    split; [| exact Ht]. intros d Hd. destruct (Hk d Hd) as [-> Hmiss].
    eexists. split; [reflexivity |]. split; [exact Hmiss |].
    apply list_elem_of_In. simpl. auto. }
  discriminate Hnone.
Qed.

(** A configuration with the first key only. *)
Lemma main_bad_config_witness :
  main (Terminal.host
          (ConfigLoaded (JObj {[ "anthropic_api_key" := JStr "k1" ]}))
          Demo.complete_run) []
    = (Uncaught (KeyError "google_api_key"), [], []).
Proof.
  destruct (main_bad_config
              (Terminal.host
                 (ConfigLoaded (JObj {[ "anthropic_api_key" := JStr "k1" ]}))
                 Demo.complete_run) []
              (JObj {[ "anthropic_api_key" := JStr "k1" ]}))
    as (r & Hmain & _); [reflexivity | reflexivity |].
  rewrite Hmain. vm_compute in Hmain. inversion Hmain. reflexivity.
Defined.

(** ** [str.strip] leaves nothing to strip *)

Lemma rstrip_idempotent (s : string) : Py.rstrip (Py.rstrip s) = Py.rstrip s.
Proof.
  induction s as [|c s IH]; [reflexivity |].
  cbn [Py.rstrip]. destruct (Py.rstrip s) as [|k ks] eqn:Hs.
  - destruct (Py.isspace c) eqn:Hc; [reflexivity |].
    cbn [Py.rstrip]. now rewrite Hc.
  - cbn [Py.rstrip]. cbn [Py.rstrip] in IH. now rewrite IH.
Qed.

Lemma rstrip_head (c : ascii) (s : string) :
  Py.isspace c = false -> exists k, Py.rstrip (String c s) = String c k.
Proof.
  intros Hc. cbn [Py.rstrip]. destruct (Py.rstrip s); [rewrite Hc |]; eauto.
Qed.

Lemma lstrip_head (s : string) :
  Py.lstrip s = EmptyString \/
  exists c r, Py.lstrip s = String c r /\ Py.isspace c = false.
Proof.
  induction s as [|c s IH]; [now left |].
  cbn [Py.lstrip]. destruct (Py.isspace c) eqn:Hc; [exact IH |].
  right. eauto.
Qed.

Lemma strip_idempotent (s : string) : Py.strip (Py.strip s) = Py.strip s.
Proof.
  unfold Py.strip. destruct (lstrip_head s) as [-> | (c & r & -> & Hc)].
  - reflexivity.
  - destruct (rstrip_head c r Hc) as [k Hk].
    rewrite Hk at 1. cbn [Py.lstrip]. rewrite Hc, <- Hk.
    apply rstrip_idempotent.
Qed.

(** ** Properties of [web_search_tool] *)

Section AgenticFacts.

Import AgenticSearch.

Context (N : Net).

Lemma get_targets_snoc (tr : list io_event) (e : io_event) :
  get_targets (tr ++ [e])
    = get_targets tr ++ match e with Get target _ => [target] | Print _ _ => [] end.
Proof. unfold get_targets. rewrite omap_app. destruct e; reflexivity. Qed.

Lemma urls_of_outcome (results : list json) :
  (Forall has_url results /\
   exists urls, urls_of results = Some urls /\
     Forall2 (fun result u => exists d, result = JObj d /\ d !! "url" = Some u)
       results urls) \/
  (Exists (fun result => ~ has_url result) results /\ urls_of results = None).
Proof.
  induction results as [|r rs IH].
  - left. split; [constructor |]. exists []. split; [reflexivity | constructor].
  - assert (Hbad : ~ has_url r -> Exists (fun x => ~ has_url x) (r :: rs))
      by (intros H; now apply Exists_cons_hd).
    destruct r as [| | | | | |d];
      try (right; split; [apply Hbad; intros (d & u & Hd & _); discriminate Hd
                         | reflexivity]).
    cbn [urls_of]. destruct (d !! "url") as [u|] eqn:Hu.
    + destruct IH as [(Hall & urls & -> & Hurls) | (Hex & ->)].
      * left. split.
        -- constructor; [exists d, u; auto | exact Hall].
        -- exists (u :: urls). split; [reflexivity |].
           constructor; [exists d; auto | exact Hurls].
      * right. split; [now apply Exists_cons_tl | reflexivity].
    + right. split; [| reflexivity]. apply Hbad.
      intros (d' & u & Hd & Hu'). inversion Hd; subst. congruence.
Qed.

Lemma urls_from_length (resp : exn + response) (limit : Z) :
  0 <= limit -> Z.of_nat (List.length (urls_from N resp limit)) <= limit.
Proof.
  intros Hl. unfold urls_from.
  destruct resp as [e|r]; simpl; [lia |].
  destruct (status_code r =? 200); simpl; [| lia].
  destruct (response_json N (text r)) as [e|data]; simpl; [lia |].
  destruct (result_urls data) as [urls|]; simpl; [| lia].
  rewrite slice_to_nonneg by lia. rewrite length_take. lia.
Qed.

Lemma fetch_content_targets (u : json) (tr : list io_event) :
  get_targets (snd (fetch_content N u tr)) = get_targets tr ++ string_urls [u].
Proof.
  unfold fetch_content, io_bind, io_call, io_ret.
  destruct u; simpl; try now rewrite app_nil_r.
  destruct (requests_get N tr s []) as [e|resp]; simpl.
  - now rewrite get_targets_snoc.
  - destruct (status_code resp =? 200); simpl; now rewrite get_targets_snoc.
Qed.

Lemma fetch_content_stripped (u : json) (tr : list io_event) :
  Py.strip (fst (fetch_content N u tr)) = fst (fetch_content N u tr).
Proof.
  unfold fetch_content, io_bind, io_call, io_ret.
  destruct u; simpl; try reflexivity.
  destruct (requests_get N tr s []) as [e|resp]; simpl; [reflexivity |].
  destruct (status_code resp =? 200); simpl; [apply strip_idempotent | reflexivity].
Qed.

Lemma fetch_all_outcome (urls : list json) (tr : list io_event) :
  Forall2 (fun u e => exists content,
             e = entry u content /\ Py.strip content = content)
    urls (fst (fetch_all N urls tr)) /\
  get_targets (snd (fetch_all N urls tr)) = get_targets tr ++ string_urls urls.
Proof.
  revert tr. induction urls as [|u urls IH]; intros tr.
  - split; [constructor | simpl; now rewrite app_nil_r].
  - cbn [fetch_all]. unfold io_bind, io_ret.
    pose proof (fetch_content_stripped u tr) as Hs.
    pose proof (fetch_content_targets u tr) as Ht.
    destruct (fetch_content N u tr) as [content tr1]. cbn [fst snd] in Hs, Ht.
    destruct (IH tr1) as [Hall Htargets].
    destruct (fetch_all N urls tr1) as [entries tr2]. cbn [fst snd] in *. split.
    + constructor; [exists content; auto | exact Hall].
    + rewrite Htargets, Ht, <- app_assoc. f_equal.
      unfold string_urls. destruct u; reflexivity.
Qed.

Lemma searched_urls_outcome (query : string) (tr : list io_event) :
  (Z.of_nat (List.length (fst (fst (searched_urls N query tr)))) <= 3 /\
   Z.of_nat (List.length (snd (fst (searched_urls N query tr)))) <= 5) /\
  get_targets (snd (searched_urls N query tr))
    = get_targets tr ++ [searx_base; google_url N query].
Proof.
  unfold searched_urls, io_bind, io_call, io_ret. cbn [fst snd]. split.
  - split; apply urls_from_length; lia.
  - rewrite !get_targets_snoc, !app_nil_r, <- app_assoc. reflexivity.
Qed.

End AgenticFacts.

(** X16. The output of [web_search_tool] is the JSON text of a dictionary
    with exactly the keys google_results and original_results: at most
    three original entries and at most five google entries, one entry per
    url found, in order, each the url with a content from which [strip]
    removes nothing more. *)
Theorem web_search_output_shape
    (N : AgenticSearch.Net) (query : string) (tr : list AgenticSearch.io_event) :
  exists original google : list json,
    fst (AgenticSearch.search_output N query tr)
      = <["google_results" := JArr google]>
          (<["original_results" := JArr original]> ∅) /\
    fst (AgenticSearch.web_search_tool N query tr)
      = AgenticSearch.dumps N (JObj (fst (AgenticSearch.search_output N query tr))) /\
    (List.length original <= 3)%nat /\ (List.length google <= 5)%nat /\
    Forall2 (fun u e => exists content,
               e = AgenticSearch.entry u content /\ Py.strip content = content)
      (fst (fst (AgenticSearch.searched_urls N query tr))) original /\
    Forall2 (fun u e => exists content,
               e = AgenticSearch.entry u content /\ Py.strip content = content)
      (snd (fst (AgenticSearch.searched_urls N query tr))) google.
Proof.
  pose proof (searched_urls_outcome N query tr) as [[H3 H5] _].
  unfold AgenticSearch.web_search_tool, AgenticSearch.search_output,
    AgenticSearch.io_bind, AgenticSearch.io_ret.
  destruct (AgenticSearch.searched_urls N query tr)
    as [[original_urls google_urls] tr1]. cbn [fst snd] in *.
  destruct (fetch_all_outcome N original_urls tr1) as [Ho _].
  destruct (AgenticSearch.fetch_all N original_urls tr1) as [original tr2].
  destruct (fetch_all_outcome N google_urls tr2) as [Hg _].
  destruct (AgenticSearch.fetch_all N google_urls tr2) as [google tr3].
  cbn [fst snd] in *. exists original, google.
  pose proof (Forall2_length _ _ _ Ho). pose proof (Forall2_length _ _ _ Hg).
  repeat split; try reflexivity; try lia; assumption.
Qed.

(** X17. The tool makes its two search requests and then one request for
    every url that is a string, once per occurrence and in order, the
    original urls before the google ones: a url found by both searches is
    fetched twice, and no call makes more than ten requests. *)
Theorem web_search_requests
    (N : AgenticSearch.Net) (query : string) (tr : list AgenticSearch.io_event) :
  AgenticSearch.get_targets (snd (AgenticSearch.web_search_tool N query tr))
    = AgenticSearch.get_targets tr
      ++ [AgenticSearch.searx_base; AgenticSearch.google_url N query]
      ++ AgenticSearch.string_urls (fst (fst (AgenticSearch.searched_urls N query tr)))
      ++ AgenticSearch.string_urls (snd (fst (AgenticSearch.searched_urls N query tr))) /\
  (List.length (AgenticSearch.get_targets (snd (AgenticSearch.web_search_tool N query tr)))
     <= List.length (AgenticSearch.get_targets tr) + 10)%nat.
Proof.
  pose proof (searched_urls_outcome N query tr) as [[H3 H5] Ht].
  unfold AgenticSearch.web_search_tool, AgenticSearch.search_output,
    AgenticSearch.io_bind, AgenticSearch.io_ret.
  destruct (AgenticSearch.searched_urls N query tr)
    as [[original_urls google_urls] tr1]. cbn [fst snd] in *.
  destruct (fetch_all_outcome N original_urls tr1) as [_ Ho].
  destruct (AgenticSearch.fetch_all N original_urls tr1) as [original tr2].
  destruct (fetch_all_outcome N google_urls tr2) as [_ Hg].
  destruct (AgenticSearch.fetch_all N google_urls tr2) as [google tr3].
  cbn [fst snd] in *.
  assert (Heq : AgenticSearch.get_targets tr3
                = AgenticSearch.get_targets tr
                  ++ [AgenticSearch.searx_base; AgenticSearch.google_url N query]
                  ++ AgenticSearch.string_urls original_urls
                  ++ AgenticSearch.string_urls google_urls).
  { rewrite Hg, Ho, Ht. now rewrite <- !app_assoc. }
  split; [exact Heq |]. rewrite Heq, !length_app. cbn [List.length].
  assert (Hlen : forall us, (List.length (AgenticSearch.string_urls us)
                             <= List.length us)%nat).
  { intros us. unfold AgenticSearch.string_urls.
    induction us as [|u us IH]; [reflexivity |].
    cbn [omap list_omap]. destruct u; cbn [List.length]; lia. }
  pose proof (Hlen original_urls). pose proof (Hlen google_urls). lia.
Qed.

(** Four results, the first and the last the same url: it is in both lists
    and is requested twice. *)
Lemma web_search_requests_witness :
  AgenticSearch.get_targets
    (snd (AgenticSearch.web_search_tool
            (AgenticSearch.table_net AgenticSearch.four_results AgenticSearch.pages)
            "q" []))
    = [ AgenticSearch.searx_base;
        AgenticSearch.google_url
          (AgenticSearch.table_net AgenticSearch.four_results AgenticSearch.pages) "q";
        "http://a"; "http://b"; "http://c";
        "http://a"; "http://b"; "http://c"; "http://a" ]%string.
Proof.
  destruct (web_search_requests
              (AgenticSearch.table_net AgenticSearch.four_results AgenticSearch.pages)
              "q" []) as [Heq _].
  rewrite Heq. vm_compute. reflexivity.
Defined.

(** X18. The urls of a search are all or nothing: when the answer is a
    dictionary whose results are a list, the tool keeps the first [limit]
    urls if every result is a dictionary with a url, and keeps none if any
    result, even one beyond the limit, is not. *)
Theorem urls_from_all_or_nothing
    (N : AgenticSearch.Net) (r : AgenticSearch.response)
    (d : gmap string json) (results : list json) (limit : Z) :
  AgenticSearch.status_code r = 200 ->
  AgenticSearch.response_json N (AgenticSearch.text r) = inr (JObj d) ->
  d !! "results" = Some (JArr results) ->
  0 <= limit ->
  (Forall AgenticSearch.has_url results /\
   exists urls,
     Forall2 (fun result u => exists o, result = JObj o /\ o !! "url" = Some u)
       results urls /\
     AgenticSearch.urls_from N (inr r) limit = take (Z.to_nat limit) urls) \/
  (Exists (fun result => ~ AgenticSearch.has_url result) results /\
   AgenticSearch.urls_from N (inr r) limit = []).
Proof.
  intros Hs Hj Hr Hl. unfold AgenticSearch.urls_from, AgenticSearch.result_urls.
  rewrite Hs, Hj, Hr. rewrite Z.eqb_refl. unfold default, id.
  destruct (urls_of_outcome results) as [(Hall & urls & -> & Hurls) | (Hex & ->)].
  - left. split; [exact Hall |]. exists urls. split; [exact Hurls |].
    now apply slice_to_nonneg.
  - right. split; [exact Hex | reflexivity].
Qed.

(** With four complete results the first three urls are kept; with a fifth
    result that has no url none is. *)
Lemma urls_from_all_or_nothing_witness :
  AgenticSearch.urls_from
    (AgenticSearch.table_net AgenticSearch.four_results AgenticSearch.pages)
    (inr {| AgenticSearch.status_code := 200; AgenticSearch.text := "results" |}) 3
    = [JStr "http://a"; JStr "http://b"; JStr "http://c"] /\
  AgenticSearch.urls_from
    (AgenticSearch.table_net AgenticSearch.broken_results AgenticSearch.pages)
    (inr {| AgenticSearch.status_code := 200; AgenticSearch.text := "results" |}) 3
    = [].
Proof.
  split.
  - destruct (urls_from_all_or_nothing
                (AgenticSearch.table_net AgenticSearch.four_results AgenticSearch.pages)
                {| AgenticSearch.status_code := 200; AgenticSearch.text := "results" |}
                {[ "results" := JArr [AgenticSearch.result "http://a";
                                      AgenticSearch.result "http://b";
                                      AgenticSearch.result "http://c";
                                      AgenticSearch.result "http://a"] ]}
                [AgenticSearch.result "http://a"; AgenticSearch.result "http://b";
                 AgenticSearch.result "http://c"; AgenticSearch.result "http://a"] 3)
      as [(_ & urls & _ & Hkeep) | (_ & Hnone)];
      [reflexivity | reflexivity | reflexivity | lia | |].
    + vm_compute. reflexivity.
    + vm_compute in Hnone. discriminate Hnone.
  - destruct (urls_from_all_or_nothing
                (AgenticSearch.table_net AgenticSearch.broken_results AgenticSearch.pages)
                {| AgenticSearch.status_code := 200; AgenticSearch.text := "results" |}
                {[ "results" := JArr [AgenticSearch.result "http://a";
                                      AgenticSearch.result "http://b";
                                      AgenticSearch.result "http://c";
                                      AgenticSearch.result "http://a";
                                      JObj {[ "title" := JStr "no url" ]}] ]}
                [AgenticSearch.result "http://a"; AgenticSearch.result "http://b";
                 AgenticSearch.result "http://c"; AgenticSearch.result "http://a";
                 JObj {[ "title" := JStr "no url" ]}] 3)
      as [(Hall & _) | (_ & Hnone)];
      [reflexivity | reflexivity | reflexivity | lia | |].
    + exfalso. apply Forall_forall with (x := JObj {[ "title" := JStr "no url" ]})
        in Hall.
      * destruct Hall as (o & u & Ho & Hu). inversion Ho; subst o.
        vm_compute in Hu. discriminate Hu.
      * apply list_elem_of_In. simpl. tauto.
    + exact Hnone.
Defined.

(** ** The limit chosen by the editorial front end *)

Lemma int_from_nonneg (s : string) (acc : Z) :
  0 <= acc -> Editorial.all_digits s = true -> acc <= Editorial.int_from acc s.
Proof.
  revert acc. induction s as [|c s IH]; intros acc Hacc Hd; [simpl; lia |].
  cbn [Editorial.all_digits Editorial.int_from] in *.
  apply andb_true_iff in Hd as [Hc Hs]. unfold Editorial.is_digit in Hc.
  apply andb_true_iff in Hc as [Hlo Hhi].
  apply Nat.leb_le in Hlo. apply Nat.leb_le in Hhi.
  specialize (IH (10 * acc + (Z.of_nat (nat_of_ascii c) - 48)) ltac:(lia) Hs).
  lia.
Qed.

(** X19. Whatever ASCII text is typed for the number of urls (of at most
    4300 characters, the most [int] converts), the limit chosen is never
    negative: text that is not a plain run of digits (a negative number, a
    fraction, nothing at all) gives 4, and a run of digits gives its value,
    which may be 0. *)
Theorem chosen_max_urls_nonneg (typed : string) :
  is_ascii typed = true ->
  (String.length (Py.strip typed) <= 4300)%nat ->
  0 <= Editorial.chosen_max_urls typed /\
  (Editorial.isdigit (Py.strip typed) = false -> Editorial.chosen_max_urls typed = 4) /\
  (Editorial.isdigit (Py.strip typed) = true ->
   Editorial.chosen_max_urls typed = Editorial.int (Py.strip typed)).
Proof.
  intros _ _. unfold Editorial.chosen_max_urls.
  destruct (Editorial.isdigit (Py.strip typed)) eqn:Hd.
  - split; [| split; [discriminate | reflexivity]].
    unfold Editorial.isdigit in Hd. apply andb_true_iff in Hd as [_ Hd].
    apply (int_from_nonneg _ 0); [lia | exact Hd].
  - split; [lia |]. split; [reflexivity | discriminate].
Qed.

Lemma chosen_max_urls_nonneg_witness :
  Editorial.chosen_max_urls " 12 " = 12 /\
  Editorial.chosen_max_urls "-3" = 4 /\
  Editorial.chosen_max_urls "0" = 0 /\
  0 <= Editorial.chosen_max_urls "2.5".
Proof.
  destruct (chosen_max_urls_nonneg " 12 ") as (_ & _ & H12);
    [reflexivity | vm_compute; lia |].
  destruct (chosen_max_urls_nonneg "-3") as (_ & Hneg & _);
    [reflexivity | vm_compute; lia |].
  destruct (chosen_max_urls_nonneg "0") as (_ & _ & H0);
    [reflexivity | vm_compute; lia |].
  destruct (chosen_max_urls_nonneg "2.5") as (Hfrac & _);
    [reflexivity | vm_compute; lia |].
  split; [rewrite H12; reflexivity |].
  split; [apply Hneg; reflexivity |].
  split; [rewrite H0; reflexivity | exact Hfrac].
Defined.

(** ** Order of the analyses, and a negative limit *)

(** X20. The analyses follow the ranking of the search: the filtered
    candidates are a subsequence of the candidates the search gave, the
    gathered records carry their urls one for one in that order, and they
    are what a run past the filter returns as webpage_analyses. *)
Theorem analyses_follow_ranking
    (self : WebResearchTool) (query : string) (tr : trace) :
  filtered self query tr `sublist_of` candidates self query tr /\
  Forall2 (fun u r => r !! "url" = Some (JStr (url u)))
    (filtered self query tr) (gathered self query tr) /\
  (filtered self query tr <> [] ->
   fst (research self query tr) !! "webpage_analyses"
     = Some (JArr (JObj <$> gathered self query tr))).
Proof.
  split; [| split].
  - unfold filtered.
    destruct (filter_urls_take self (candidates self query tr)) as [k ->].
    transitivity (trusted_inputs self (candidates self query tr)).
    + apply sublist_take.
    + apply trusted_inputs_sublist.
  - eapply Forall2_impl; [apply gathered_records |].
    intros u r [tr' ->]. apply analyze_webpage_url.
  - intros Hne.
    destruct (research_result_cases self query tr)
      as [[Hc _] | [(_ & Hf & _) | [(_ & ts & msg & _ & ->) | (_ & ts & v & _ & ->)]]].
    + now apply filtered_candidates in Hne.
    + contradiction.
    + reflexivity.
    + reflexivity.
Qed.

Lemma analyses_follow_ranking_witness :
  fst (research Demo.complete_run "q" []) !! "webpage_analyses"
    = Some (JArr (JObj <$> gathered Demo.complete_run "q" [])) /\
  (fun r : gmap string json => r !! "url") <$> gathered Demo.complete_run "q" []
    = [Some (JStr Demo.nature); Some (JStr Demo.arxiv); Some (JStr Demo.campus)].
Proof.
  destruct (analyses_follow_ranking Demo.complete_run "q" []) as (_ & _ & Hres).
  split.
  - apply Hres. vm_compute. discriminate.
  - vm_compute. reflexivity.
Defined.

(** X21. A negative limit does not limit: [filter_urls] then returns the
    trusted candidates without their last [-max_urls], so with enough
    trusted candidates its output is longer than any bound the limit could
    mean. *)
Theorem filter_urls_negative_limit (self : WebResearchTool) (urls : list url_data) :
  max_urls self < 0 ->
  filter_urls self urls
    = take (List.length (trusted_inputs self urls) - Z.to_nat (- max_urls self))
        (trusted_inputs self urls) /\
  List.length (filter_urls self urls)
    = (List.length (trusted_inputs self urls) - Z.to_nat (- max_urls self))%nat.
Proof.
  intros Hneg.
  assert (Heq : filter_urls self urls
                = take (List.length (trusted_inputs self urls)
                        - Z.to_nat (- max_urls self))
                    (trusted_inputs self urls)).
  { unfold filter_urls, Py.slice_to. rewrite filter_loop_acc. cbn [app].
    destruct (0 <=? max_urls self) eqn:Hle; [| reflexivity].
    apply Z.leb_le in Hle. lia. }
  split; [exact Heq |]. rewrite Heq, length_take. lia.
Qed.

(** With the limit minus one, two trusted candidates give one. *)
Lemma filter_urls_negative_limit_witness :
  filter_urls Cases.negative_tool Demo.lookalike_urls
    = [Demo.candidate Demo.fakegov].
Proof.
  destruct (filter_urls_negative_limit Cases.negative_tool Demo.lookalike_urls)
    as [Heq _].
  - reflexivity.
  - rewrite Heq. vm_compute. reflexivity.
Defined.
